(** * Hive: worker orchestration, status aggregation and modal key dispatch

    A shallow embedding of the TypeScript sources of `hive-cli`
    (`workers.ts`, `config`, `theme`, the `theme` commands of `cli.ts`, the
    dashboard hooks, `App`, `WorkerCard`, `embedded/keybindings.ts`) and
    theorems about the behaviour the specification describes and about what
    the code does beyond it.

    Conventions of the embedding:
    - the filesystem is a finite map from paths to nodes, the session host
      (tmux) a finite map from session names to sessions;
    - code that can throw lives in the monad [M] (world passing, plus an
      exception result); `try { .. } catch { .. }` is [try_catch];
    - built-ins of the Node runtime that the repository does not define
      (`path.join`, `JSON.parse`, the text of an error) are fields of the
      class [Runtime], `JSON.stringify` is the class [Serializer], and
      `process.env` is an argument; the reactions of the external tools
      (tmux, git) that depend on more than the modelled state are fields of
      the class [Host];
    - JavaScript numbers that hold worker ids, sizes and percentages are
      integers here ([Z]); strings are byte strings, so lengths, padding and
      trimming agree with JavaScript on one-byte characters. *)

From Stdlib Require Import ZArith List Ascii String Lia.
From stdpp Require Import base gmap strings list pretty.

Open Scope string_scope.
Open Scope list_scope.
Open Scope Z_scope.

(** ** The world: filesystem, session host, console *)

(** A filesystem node.  A directory carries the size `statSync` reports. *)
Inductive node :=
| File (content : string)
| Dir (size : Z).

(** A tmux session as far as `workers.ts` configures one. *)
Record session := mkSession {
  s_cwd : string;            (* new-session -c *)
  s_pipe : option string;    (* pipe-pane shell command *)
  s_mouse : bool;            (* set-option mouse on *)
  s_keys : list string;      (* send-keys, oldest first *)
}.

(** One `git worktree add` request: a creation attempt. *)
Record git_call := mkGitCall {
  g_cwd : string;
  g_path : string;
  g_branch : string;
}.

Record world := mkWorld {
  cwd : string;                       (* process.cwd() *)
  fs : gmap string node;
  sessions : gmap string session;
  git_calls : list git_call;          (* oldest first *)
  console : list string;              (* console.log / console.error lines *)
}.

Definition set_fs (f : gmap string node) (w : world) : world :=
  mkWorld (cwd w) f (sessions w) (git_calls w) (console w).
Definition set_sessions (s : gmap string session) (w : world) : world :=
  mkWorld (cwd w) (fs w) s (git_calls w) (console w).
Definition add_git_call (g : git_call) (w : world) : world :=
  mkWorld (cwd w) (fs w) (sessions w) (git_calls w ++ [g]) (console w).
Definition add_console (l : string) (w : world) : world :=
  mkWorld (cwd w) (fs w) (sessions w) (git_calls w) (console w ++ [l]).

(** What the host and the filesystem hold, without the console and the
    record of requests: the state two runs are compared on. *)
Definition host_state (w : world) : gmap string node * gmap string session :=
  (fs w, sessions w).

(** ** Exceptions and the monad of effectful code *)

Inductive error :=
| ENOENT (path : string)
| EISDIR (path : string)
| EEXIST (path : string)
| SyntaxError
| CommandFailed (command : string).

Inductive result (A : Type) :=
| Val (a : A)
| Exn (e : error).
Arguments Val {A} a.
Arguments Exn {A} e.

Definition M (A : Type) : Type := world -> result A * world.

Definition ret {A} (a : A) : M A := fun w => (Val a, w).
Definition bind {A B} (m : M A) (f : A -> M B) : M B := fun w =>
  match m w with
  | (Val a, w') => f a w'
  | (Exn e, w') => (Exn e, w')
  end.

#[global] Instance M_ret : MRet M := @ret.
#[global] Instance M_bind : MBind M := fun A B f m => bind m f.

Notation "'let*' x ':=' m 'in' k" := (bind m (fun x => k))
  (at level 10, x name, m at level 100, k at level 200, only parsing).

Definition throw {A} (e : error) : M A := fun w => (Exn e, w).
Definition gets {A} (f : world -> A) : M A := fun w => (Val (f w), w).
Definition modify (f : world -> world) : M unit := fun w => (Val tt, f w).

(** `try { body } catch (e) { handler }` *)
Definition try_catch {A} (body : M A) (handler : error -> M A) : M A := fun w =>
  match body w with
  | (Val a, w') => (Val a, w')
  | (Exn e, w') => handler e w'
  end.

(** ** Documents read from disk *)

(** `WorkerStatus.subagent` *)
Record Subagent := mkSubagent {
  sa_name : string;
  sa_status : string;
  sa_message : option string;
}.

(** `interface WorkerStatus`.  The status is kept as the string the document
    holds: the readers below still look unknown values up. *)
Record WorkerStatus := mkWorkerStatus {
  status : string;
  branch : option string;
  current : option string;
  percent : option Z;
  subagent : option Subagent;
}.

(** `interface HiveConfig`, as the object `JSON.parse` returns: keys to
    values (the only key in use is "theme"). *)
Abbreviation HiveConfig := (gmap string string).

(** ** Runtime built-ins and host reactions *)

Inductive tmux_cmd :=
| HasSession (target : string)
| NewSession (name dir : string)
| PipePane (target shell_cmd : string)
| SetMouseOn (target : string)
| SendKeys (target keys : string)
| KillSession (target : string).

Class Runtime := {
  path_join : list string -> string;
  path_basename : string -> string;
  path_dirname : string -> string;
  (** `JSON.parse(content) as WorkerStatus`; [None] is a thrown SyntaxError. *)
  parse_status : string -> option WorkerStatus;
  (** `JSON.parse(content) as HiveConfig`; [None] is a thrown SyntaxError. *)
  parse_config : string -> option HiveConfig;
  error_text : error -> string;
  fresh_dir_size : Z;
  (** `os.homedir()` *)
  os_homedir : string;
}.

Class Host := {
  (** The host refuses the command whatever the sessions are (binary
      missing, server unreachable, option unsupported). *)
  tmux_rejects : gmap string session -> tmux_cmd -> bool;
  (** `git worktree add P -b B || git worktree add P B || true` run in a
      directory: [None] when `execSync` throws, else the filesystem after. *)
  git_worktree_add : gmap string node -> git_call -> option (gmap string node);
}.

(** ** Node primitives *)

Section Primitives.
Context `{RT : Runtime} `{HT : Host}.

Definition existsSync (p : string) : M bool :=
  gets (fun w => match fs w !! p with Some _ => true | None => false end).

Definition readFileSync (p : string) : M string := fun w =>
  match fs w !! p with
  | Some (File c) => (Val c, w)
  | Some (Dir _) => (Exn (EISDIR p), w)
  | None => (Exn (ENOENT p), w)
  end.

(** `statSync(p).size` *)
Definition statSync_size (p : string) : M Z := fun w =>
  match fs w !! p with
  | Some (File c) => (Val (Z.of_nat (String.length c)), w)
  | Some (Dir n) => (Val n, w)
  | None => (Exn (ENOENT p), w)
  end.

(** `writeFileSync(p, content)` (flag 'w': create or truncate). *)
Definition writeFileSync (p content : string) : M unit := fun w =>
  match fs w !! p with
  | Some (Dir _) => (Exn (EISDIR p), w)
  | _ => (Val tt, set_fs (<[p := File content]> (fs w)) w)
  end.

(** `mkdirSync(p, { recursive: true })` *)
Definition mkdirSync (p : string) : M unit := fun w =>
  match fs w !! p with
  | Some (File _) => (Exn (EEXIST p), w)
  | Some (Dir _) => (Val tt, w)
  | None => (Val tt, set_fs (<[p := Dir fresh_dir_size]> (fs w)) w)
  end.

Definition console_log (l : string) : M unit := modify (add_console l).
Definition console_error (l : string) : M unit := modify (add_console l).

(** What a tmux command does to the sessions; [None] is a non-zero exit.
    A target names a session by its exact name. *)
Definition tmux_effect (ss : gmap string session) (c : tmux_cmd)
  : option (gmap string session) :=
  match c with
  | HasSession t => match ss !! t with Some _ => Some ss | None => None end
  | NewSession n d =>
      match ss !! n with
      | Some _ => None
      | None => Some (<[n := mkSession d None false []]> ss)
      end
  | PipePane t c =>
      match ss !! t with
      | Some s => Some (<[t := mkSession (s_cwd s) (Some c) (s_mouse s) (s_keys s)]> ss)
      | None => None
      end
  | SetMouseOn t =>
      match ss !! t with
      | Some s => Some (<[t := mkSession (s_cwd s) (s_pipe s) true (s_keys s)]> ss)
      | None => None
      end
  | SendKeys t k =>
      match ss !! t with
      | Some s => Some (<[t := mkSession (s_cwd s) (s_pipe s) (s_mouse s) (s_keys s ++ [k])]> ss)
      | None => None
      end
  | KillSession t =>
      match ss !! t with Some _ => Some (delete t ss) | None => None end
  end.

Definition tmux_text (c : tmux_cmd) : string :=
  match c with
  | HasSession t => "tmux has-session -t " +:+ t
  | NewSession n d => "tmux new-session -d -s " +:+ n +:+ " -c " +:+ d
  | PipePane t c => "tmux pipe-pane -t " +:+ t +:+ " " +:+ c
  | SetMouseOn t => "tmux set-option -t " +:+ t +:+ " mouse on"
  | SendKeys t k => "tmux send-keys -t " +:+ t +:+ " " +:+ k +:+ " Enter"
  | KillSession t => "tmux kill-session -t " +:+ t
  end.

(** `execSync("tmux ...", { stdio: 'ignore' })`: throws on a non-zero exit. *)
Definition execSync_tmux (c : tmux_cmd) : M unit := fun w =>
  if tmux_rejects (sessions w) c then (Exn (CommandFailed (tmux_text c)), w)
  else match tmux_effect (sessions w) c with
       | Some ss => (Val tt, set_sessions ss w)
       | None => (Exn (CommandFailed (tmux_text c)), w)
       end.

(** `execSync("git worktree add ...", { cwd })`: the request is recorded,
    then the host decides. *)
Definition execSync_git (g : git_call) : M unit := fun w =>
  let w1 := add_git_call g w in
  match git_worktree_add (fs w) g with
  | Some f => (Val tt, set_fs f w1)
  | None => (Exn (CommandFailed "git worktree add"), w1)
  end.

(** `execSync('sleep 1')`: time is not part of the world. *)
Definition execSync_sleep : M unit := ret tt.

End Primitives.

(** ** JavaScript idioms *)

(** `s || d` on an optional string: undefined and the empty string are falsy. *)
Definition or_default (s : option string) (d : string) : string :=
  match s with
  | Some "" | None => d
  | Some v => v
  end.

(** `s.padEnd(n)` on a string of one-byte characters. *)
Definition padEnd (n : nat) (s : string) : string :=
  s +:+ string_of_list_ascii (repeat " "%char (n - String.length s)).

(** `l.slice(-n)`: the last [n] elements. *)
Definition slice_last {A} (n : nat) (l : list A) : list A :=
  drop (length l - n) l.

(** `for (let i = lo; i <= hi; i++) acc.push(body(i))` *)
Fixpoint for_push {A} (fuel : nat) (i hi : Z) (body : Z -> M A) (acc : list A)
  : M (list A) :=
  match fuel with
  | O => ret acc
  | S n =>
      if i <=? hi then let* a := body i in for_push n (i + 1) hi body (acc ++ [a])
      else ret acc
  end.

(** `s.split(sep)` for a one-character separator. *)
Fixpoint split_on (sep : ascii) (s : string) : list string :=
  match s with
  | EmptyString => [""]
  | String c rest =>
      if Ascii.eqb c sep then "" :: split_on sep rest
      else match split_on sep rest with
           | h :: t => String c h :: t
           | [] => [String c ""]
           end
  end.

(** `for (const x of l) body(x)` *)
Fixpoint for_each {A} (l : list A) (body : A -> M unit) : M unit :=
  match l with
  | [] => ret tt
  | x :: rest => body x;; for_each rest body
  end.

Definition is_space (c : ascii) : bool :=
  match nat_of_ascii c with
  | 9%nat | 10%nat | 11%nat | 12%nat | 13%nat | 32%nat => true
  | _ => false
  end.

Fixpoint trim_start (s : string) : string :=
  match s with
  | String c rest => if is_space c then trim_start rest else s
  | EmptyString => EmptyString
  end.

Definition string_rev (s : string) : string :=
  string_of_list_ascii (rev (list_ascii_of_string s)).

(** `s.trim()` on a string of one-byte characters. *)
Definition trim (s : string) : string :=
  string_rev (trim_start (string_rev (trim_start s))).

(** `s.slice(0, n)` for n >= 0. *)
Definition slice_prefix (n : nat) (s : string) : string := substring 0 n s.

(** `s.repeat(n)` *)
Fixpoint repeat_string (s : string) (n : nat) : string :=
  match n with
  | O => ""
  | S k => s +:+ repeat_string s k
  end.

Definition ESC : string := String (ascii_of_nat 27) "".

(** ** workers.ts *)

Record WorkerInfo := mkWorkerInfo {
  info_id : Z;
  sessionName : string;
  worktreePath : string;
  logPath : string;
  running : bool;
  info_status : option WorkerStatus;
}.

Record ProjectConfig := mkProjectConfig {
  projectRoot : string;
  projectName : string;
  hiveDir : string;
  worktreeBase : string;
}.

Definition WORKER_COUNT : Z := 4.
Definition LOG_DIR : string := "/tmp".

Section Workers.
Context `{RT : Runtime} `{HT : Host}.

(** The body of `getProjectConfig`, given `process.cwd()`. *)
Definition project_config (projectRoot : string) : ProjectConfig :=
  let projectName := path_basename projectRoot in
  let hiveDir := path_join [projectRoot; ".hive"] in
  let worktreeBase :=
    path_join [path_dirname projectRoot; ".worktrees"; projectName] in
  mkProjectConfig projectRoot projectName hiveDir worktreeBase.

Definition getProjectConfig : M ProjectConfig :=
  gets (fun w => project_config (cwd w)).

Definition getWorkerSessionName (projectName : string) (workerId : Z) : string :=
  "hive-" +:+ projectName +:+ "-worker-" +:+ pretty workerId.

Definition getWorkerLogPath (projectName : string) (workerId : Z) : string :=
  path_join [LOG_DIR; "hive-" +:+ projectName +:+ "-worker-" +:+ pretty workerId +:+ ".log"].

Definition sessionExists (sessionName : string) : M bool :=
  try_catch (execSync_tmux (HasSession sessionName);; ret true)
            (fun _ => ret false).

Definition getWorktreePath (worktreeBase : string) (workerId : Z) : string :=
  path_join [worktreeBase; "worker-" +:+ pretty workerId].

Definition createWorktree (projectRoot worktreeBase : string) (workerId : Z)
    (branch : option string) : M string :=
  let worktreePath := getWorktreePath worktreeBase workerId in
  let* baseExists := existsSync worktreeBase in
  (if negb baseExists then mkdirSync worktreeBase else ret tt);;
  let* present := existsSync worktreePath in
  if present then ret worktreePath
  else
    let workspaceBranch :=
      or_default branch ("worker-" +:+ pretty workerId +:+ "-workspace") in
    let* ran := try_catch
            (execSync_git (mkGitCall projectRoot worktreePath workspaceBranch);;
             ret true)
            (fun _ => ret false) in
    if negb ran then ret projectRoot
    else
      let* created := existsSync worktreePath in
      ret (if created then worktreePath else projectRoot).

Definition readWorkerStatus (hiveDir : string) (workerId : Z)
  : M (option WorkerStatus) :=
  let statusFile :=
    path_join [hiveDir; "status"; "worker-" +:+ pretty workerId +:+ ".json"] in
  let* present := existsSync statusFile in
  if negb present then ret None
  else
    try_catch
      (let* content := readFileSync statusFile in
       match parse_status content with
       | Some st => ret (Some st)
       | None => throw SyntaxError
       end)
      (fun _ => ret None).

Definition getWorkersInfo : M (list WorkerInfo) :=
  let* config := getProjectConfig in
  for_push (Z.to_nat WORKER_COUNT) 1 WORKER_COUNT
    (fun i =>
       let sessionName := getWorkerSessionName (projectName config) i in
       let worktreePath := getWorktreePath (worktreeBase config) i in
       let logPath := getWorkerLogPath (projectName config) i in
       let* running := sessionExists sessionName in
       let* status := readWorkerStatus (hiveDir config) i in
       ret (mkWorkerInfo i sessionName worktreePath logPath running status))
    [].

Definition startWorker (workerId : Z) : M bool :=
  let* config := getProjectConfig in
  let sessionName := getWorkerSessionName (projectName config) workerId in
  let* alive := sessionExists sessionName in
  if alive then
    console_log ("  Worker-" +:+ pretty workerId +:+ " already running");;
    ret true
  else
    let* worktreePath := createWorktree (projectRoot config) (worktreeBase config)
                     workerId None in
    let logPath := getWorkerLogPath (projectName config) workerId in
    writeFileSync logPath "";;
    try_catch
      (execSync_tmux (NewSession sessionName worktreePath);;
       execSync_tmux (PipePane sessionName ("cat >> " +:+ logPath));;
       execSync_tmux (SetMouseOn sessionName);;
       execSync_tmux (SendKeys sessionName "claude --dangerously-skip-permissions");;
       console_log ("  Worker-" +:+ pretty workerId +:+ " started (" +:+ sessionName +:+ ")");;
       ret true)
      (fun error =>
         console_error ("  Failed to start Worker-" +:+ pretty workerId +:+ ": "
                        +:+ error_text error);;
         ret false).

Definition stopWorker (workerId : Z) : M bool :=
  let* config := getProjectConfig in
  let sessionName := getWorkerSessionName (projectName config) workerId in
  let* alive := sessionExists sessionName in
  if negb alive then
    console_log ("  Worker-" +:+ pretty workerId +:+ " not running");;
    ret false
  else
    try_catch
      (execSync_tmux (SendKeys sessionName "/exit");;
       console_log ("  Worker-" +:+ pretty workerId +:+ " stopping...");;
       ret true)
      (fun error =>
         console_error ("  Failed to stop Worker-" +:+ pretty workerId +:+ ": "
                        +:+ error_text error);;
         ret false).

Definition killWorker (workerId : Z) : M bool :=
  let* config := getProjectConfig in
  let sessionName := getWorkerSessionName (projectName config) workerId in
  let* alive := sessionExists sessionName in
  if negb alive then ret true
  else
    try_catch
      (execSync_tmux (KillSession sessionName);;
       console_log ("  Worker-" +:+ pretty workerId +:+ " killed");;
       ret true)
      (fun error =>
         console_error ("  Failed to kill Worker-" +:+ pretty workerId +:+ ": "
                        +:+ error_text error);;
         ret false).

Definition restartWorker (workerId : Z) : M unit :=
  if (workerId <? 1) || (workerId >? WORKER_COUNT) then
    console_error (ESC +:+ "[31mError: Worker ID must be 1-" +:+ pretty WORKER_COUNT
                   +:+ ESC +:+ "[0m")
  else
    console_log (ESC +:+ "[34m🐝 Restarting Worker-" +:+ pretty workerId +:+ ESC +:+ "[0m");;
    console_log "";;
    killWorker workerId;;
    execSync_sleep;;
    startWorker workerId;;
    console_log "";;
    console_log (ESC +:+ "[32m✅ Worker-" +:+ pretty workerId +:+ " restarted" +:+ ESC +:+ "[0m").

(** The line `listWorkers` prints for one worker. *)
Definition worker_line (worker : WorkerInfo) : string :=
  let statusIcon :=
    if running worker then ESC +:+ "[32m●" +:+ ESC +:+ "[0m"
    else ESC +:+ "[90m○" +:+ ESC +:+ "[0m" in
  let statusText := if running worker then "running" else "stopped" in
  let workerStatus := or_default (status <$> info_status worker) "unknown" in
  let branch := or_default (info_status worker ≫= branch) "-" in
  "  " +:+ statusIcon +:+ " Worker-" +:+ pretty (info_id worker) +:+ "  "
  +:+ padEnd 8 statusText +:+ "  " +:+ padEnd 12 workerStatus +:+ "  " +:+ branch.

Definition listWorkers : M unit :=
  let* config := getProjectConfig in
  let* workers := getWorkersInfo in
  console_log (ESC +:+ "[34m🐝 HiveCode Workers" +:+ ESC +:+ "[0m");;
  console_log ("   Project: " +:+ projectName config);;
  console_log "";;
  for_each workers (fun worker =>
    console_log (worker_line worker);;
    match info_status worker ≫= subagent with
    | Some sa =>
        console_log ("      └─ [" +:+ sa_name sa +:+ "] " +:+ sa_status sa +:+ ": "
                     +:+ or_default (sa_message sa) "")
    | None => ret tt
    end);;
  console_log "".

End Workers.

(** ** A runtime and a host to run the definitions on

    `join` glues its segments with "/", the parsers know a few documents,
    the host never refuses a command and git creates the directory it is
    asked for. *)
Module Sample.

Definition DQ : string := String (ascii_of_nat 34) "".

Definition status_coding : WorkerStatus :=
  mkWorkerStatus "coding" (Some "feature/x") None (Some 150) None.

(** The document of the specification's scenario:
    status coding, branch feature/x, percent 150. *)
Definition status_doc : string :=
  "{" +:+ DQ +:+ "status" +:+ DQ +:+ ":" +:+ DQ +:+ "coding" +:+ DQ +:+ ","
  +:+ DQ +:+ "branch" +:+ DQ +:+ ":" +:+ DQ +:+ "feature/x" +:+ DQ +:+ ","
  +:+ DQ +:+ "percent" +:+ DQ +:+ ":150}".

(** The same document cut off in the middle of a write. *)
Definition status_doc_half : string :=
  "{" +:+ DQ +:+ "status" +:+ DQ +:+ ":" +:+ DQ +:+ "cod".

Definition config_doc (theme : string) : string :=
  "{" +:+ DQ +:+ "theme" +:+ DQ +:+ ":" +:+ DQ +:+ theme +:+ DQ +:+ "}".

Definition join (l : list string) : string := String.concat "/" l.
Definition basename (p : string) : string := List.last (split_on "/" p) "".
Definition dirname (p : string) : string :=
  String.concat "/" (removelast (split_on "/" p)).

#[local] Instance runtime : Runtime := {|
  path_join := join;
  path_basename := basename;
  path_dirname := dirname;
  parse_status := fun s =>
    if String.eqb s status_doc then Some status_coding else None;
  parse_config := fun s =>
    if String.eqb s (config_doc "dark") then Some {[ "theme" := "dark" ]}
    else if String.eqb s (config_doc "light") then Some {[ "theme" := "light" ]}
    else None;
  error_text := fun e =>
    match e with
    | ENOENT p => "ENOENT: " +:+ p
    | EISDIR p => "EISDIR: " +:+ p
    | EEXIST p => "EEXIST: " +:+ p
    | SyntaxError => "SyntaxError"
    | CommandFailed c => "Command failed: " +:+ c
    end;
  fresh_dir_size := 4096;
  os_homedir := "/home/u";
|}.

#[local] Instance host : Host := {|
  tmux_rejects := fun _ _ => false;
  git_worktree_add := fun f g => Some (<[g_path g := Dir 4096]> f);
|}.

(** A host on which git cannot create worktrees. *)
Definition host_without_git : Host := {|
  tmux_rejects := fun _ _ => false;
  git_worktree_add := fun f _ => Some f;
|}.

Definition empty_world : world := mkWorld "/home/u/proj" ∅ ∅ [] [].

Definition with_file (p content : string) (w : world) : world :=
  set_fs (<[p := File content]> (fs w)) w.

End Sample.


(** ** config (configuration management) *)

Definition CONFIG_FILENAME : string := "config.json".

Section Config.
Context `{RT : Runtime} `{HT : Host}.

Definition GLOBAL_CONFIG_DIR : string := path_join [os_homedir; ".config"; "hivecode"].
Definition GLOBAL_CONFIG_PATH : string := path_join [GLOBAL_CONFIG_DIR; CONFIG_FILENAME].

Definition getLocalConfigPath (projectRoot : string) : string :=
  path_join [projectRoot; ".hive"; CONFIG_FILENAME].

(** The `try` block returns the parsed object; every other way out of it
    (no file, read error, SyntaxError) ends at `return {}`. *)
Definition readConfigFile (path : string) : M HiveConfig :=
  let* parsed :=
    try_catch
      (let* present := existsSync path in
       if present then
         let* content := readFileSync path in
         match parse_config content with
         | Some config => ret (Some config)
         | None => throw SyntaxError
         end
       else ret None)
      (fun _ => ret None) in
  match parsed with
  | Some config => ret config
  | None => ret ∅
  end.

Definition getGlobalConfig : M HiveConfig := readConfigFile GLOBAL_CONFIG_PATH.

Definition getLocalConfig (projectRoot : string) : M HiveConfig :=
  readConfigFile (getLocalConfigPath projectRoot).

(** `projectRoot ? .. : {}`: undefined and the empty string are falsy. *)
Definition truthy (s : option string) : option string :=
  match s with
  | Some "" | None => None
  | Some v => Some v
  end.

(** `{ ...global, ...local }`: a key of `local` wins. *)
Definition getMergedConfig (projectRoot : option string) : M HiveConfig :=
  let* global := getGlobalConfig in
  let* local :=
    match truthy projectRoot with
    | Some root => getLocalConfig root
    | None => ret ∅
    end in
  ret (local ∪ global).

Definition getConfigValue (key : string) (projectRoot : option string)
  : M (option string) :=
  let* config := getMergedConfig projectRoot in
  ret (config !! key).

(** The file of a level is missing, or its content does not parse. *)
Definition missing_or_malformed (path : string) (w : world) : Prop :=
  fs w !! path = None \/
  exists content, fs w !! path = Some (File content) /\ parse_config content = None.

End Config.

(** ** dashboard/hooks/useWorkerStatus *)

Section UseWorkerStatus.
Context `{RT : Runtime} `{HT : Host}.

(** `useState(() => getWorkersInfo())` *)
Definition useWorkerStatus_init : M (list WorkerInfo) := getWorkersInfo.

(** One tick of the interval: `setWorkers(getWorkersInfo())`.  The state
    held before the tick is an argument and the new state is the result. *)
Definition useWorkerStatus_poll (workers : list WorkerInfo) : M (list WorkerInfo) :=
  let* next := getWorkersInfo in
  ret next.

(** The status the dashboard state holds for a slot. *)
Definition slot_status (slot : Z) (workers : list WorkerInfo) : option WorkerStatus :=
  match List.find (fun worker => info_id worker =? slot) workers with
  | Some worker => info_status worker
  | None => None
  end.

End UseWorkerStatus.

(** ** dashboard/hooks/useWorkerLogs *)

Definition MAX_LINES : nat := 100.

(** What the hook keeps between polls: `lines` (React state) and
    `lastSizeRef.current`. *)
Record LogTail := mkLogTail {
  lines : list string;
  lastSize : Z;
}.

Section UseWorkerLogs.
Context `{RT : Runtime} `{HT : Host}.

(** The start of the effect: `lastSizeRef.current = 0; setLines([])`. *)
Definition logs_reset : LogTail := mkLogTail [] 0.

Definition nonblank (line : string) : bool := negb (String.eqb (trim line) "").

(** `content.split('\n').filter(line => line.trim() !== '').slice(-MAX_LINES)` *)
Definition recent_lines (content : string) : list string :=
  slice_last MAX_LINES (List.filter nonblank (split_on "010"%char content)).

Definition pollLog (logPath : string) (st : LogTail) : M LogTail :=
  let* present := existsSync logPath in
  if negb present then ret st
  else
    try_catch
      (let* currentSize := statSync_size logPath in
       if currentSize >? lastSize st then
         let* content := readFileSync logPath in
         let allLines := List.filter nonblank (split_on "010"%char content) in
         let recentLines := slice_last MAX_LINES allLines in
         ret (mkLogTail recentLines currentSize)
       else ret st)
      (fun _ => ret st).

(** The hook for a worker: reset, the initial read, then one poll per tick. *)
Definition useWorkerLogs_start (projectName : string) (workerId : Z) : M LogTail :=
  pollLog (getWorkerLogPath projectName workerId) logs_reset.

Definition useWorkerLogs_tick (projectName : string) (workerId : Z) (st : LogTail)
  : M LogTail :=
  pollLog (getWorkerLogPath projectName workerId) st.

End UseWorkerLogs.

(** ** dashboard/components/WorkerCard *)

(** `InkColors` of the theme. *)
Record InkColors := mkInkColors {
  c_brand : string;
  c_border : string;
  c_borderInactive : string;
  c_text : string;
  c_textDim : string;
  c_success : string;
  c_error : string;
  c_warning : string;
  c_info : string;
}.

Inductive ColorKey := KTextDim | KSuccess | KWarning | KInfo | KBrand.

Definition color_of (colors : InkColors) (k : ColorKey) : string :=
  match k with
  | KTextDim => c_textDim colors
  | KSuccess => c_success colors
  | KWarning => c_warning colors
  | KInfo => c_info colors
  | KBrand => c_brand colors
  end.

(** `STATUS_ICONS[status]`: own keys only. *)
Definition STATUS_ICONS (key : string) : option (string * ColorKey) :=
  match key with
  | "idle" => Some ("○", KTextDim)
  | "coding" => Some ("●", KSuccess)
  | "testing" => Some ("◐", KWarning)
  | "reviewing" => Some ("●", KInfo)
  | "ready_for_review" => Some ("◉", KInfo)
  | "approved" => Some ("✓", KSuccess)
  | "unknown" => Some ("?", KTextDim)
  | _ => None
  end.

(** The rendered tree, as far as it depends on data: text with its colour,
    boxes with their border; static layout attributes are left out. *)
#[local] Unset Elimination Schemes.
Inductive ink :=
| Str (s : string)
| Spinner
| Text (color : string) (bold : bool) (children : list ink)
| Box (border : option (string * string)) (children : list ink).
#[local] Set Elimination Schemes.

Definition subagent_compact (colors : InkColors) (sa : Subagent) : ink :=
  Text (if String.eqb (sa_status sa) "running" then c_warning colors
        else if String.eqb (sa_status sa) "passed" then c_success colors
        else c_error colors) false
    ((if String.eqb (sa_status sa) "running" then [Spinner] else [])
     ++ [Str (if String.eqb (sa_status sa) "running" then " "
              else if String.eqb (sa_status sa) "passed" then "✓ " else "✗ ");
         Str ("[" +:+ sa_name sa +:+ "] " +:+ or_default (sa_message sa) "")]).

Definition subagent_standard (colors : InkColors) (sa : Subagent) : ink :=
  Box None
    [if String.eqb (sa_status sa) "running" then
       Text (c_warning colors) false
         [Spinner; Str (" [" +:+ sa_name sa +:+ "] "
                        +:+ or_default (sa_message sa) "Running...")]
     else if String.eqb (sa_status sa) "passed" then
       Text (c_success colors) false [Str ("✓ [" +:+ sa_name sa +:+ "] Passed")]
     else
       Text (c_error colors) false
         [Str ("✗ [" +:+ sa_name sa +:+ "] " +:+ or_default (sa_message sa) "Failed")]].

(** `WorkerCard({ worker, projectName, selected, compact })`, given what the
    hooks return: the terminal width (`stdout?.columns`), the theme colours
    and the lines of `useWorkerLogs`.  `Math.floor(contentWidth * 0.4)` is
    the integer quotient of `2 * contentWidth` by 5. *)
Definition WorkerCard (columns : option Z) (colors : InkColors) (logs : list string)
    (worker : WorkerInfo) (selected compact : bool) : ink :=
  let termWidth := match columns with Some 0 | None => 80 | Some c => c end in
  let status :=
    or_default (status <$> info_status worker)
      (if running worker then "idle" else "stopped") in
  let statusConfig := default ("?", KTextDim) (STATUS_ICONS status) in
  let statusColor := color_of colors (snd statusConfig) in
  let branch := or_default (info_status worker ≫= branch) "—" in
  let subagent := info_status worker ≫= subagent in
  let contentWidth := Z.max (termWidth - 4) 20 in
  let logLineWidth := Z.max (contentWidth - 2) 15 in
  let recentLogs := slice_last (if compact then 5 else 4) logs in
  let border :=
    Some (if selected then "bold" else "single",
          if selected then c_brand colors
          else if running worker then c_border colors
          else c_borderInactive colors) in
  let nameColor := if running worker then c_text colors else c_textDim colors in
  let log_line line :=
    Text (c_textDim colors) false [Str (slice_prefix (Z.to_nat logLineWidth) line)] in
  if compact then
    let branchMaxLen := Z.max (2 * contentWidth / 5) 10 in
    let displayBranch :=
      if Z.of_nat (String.length branch) >? branchMaxLen
      then slice_prefix (Z.to_nat (branchMaxLen - 1)) branch +:+ "…"
      else branch in
    let current := truthy (info_status worker ≫= current) in
    Box border
      [Box None
         [Text nameColor true [Str ("W" +:+ pretty (info_id worker))];
          Text (c_textDim colors) false [Str " "];
          Text statusColor false [Str (fst statusConfig)];
          Text (c_textDim colors) false [Str " "];
          Text (c_info colors) false [Str displayBranch]];
       Box None
         (if running worker then
            match current with
            | Some text =>
                [Text (c_text colors) false
                   [Str (slice_prefix (Z.to_nat logLineWidth) text)]]
            | None => []
            end
            ++ match subagent with
               | Some sa => [subagent_compact colors sa]
               | None => []
               end
            ++ (if (0 <? length recentLogs)%nat then map log_line recentLogs
                else match current, subagent with
                     | None, None =>
                         [Text (c_textDim colors) false [Str "initializing..."]]
                     | _, _ => []
                     end)
          else [Text (c_textDim colors) false [Str "(stopped)"]])]
  else
    Box border
      [Box None
         [Text nameColor true [Str ("Worker-" +:+ pretty (info_id worker))];
          Text (c_textDim colors) false [Str "  "];
          Text (c_info colors) false [Str branch];
          Text (c_textDim colors) false [Str "  "];
          Text statusColor false [Str (fst statusConfig +:+ " " +:+ status)]];
       Box None
         [Text (c_textDim colors) false
            [Str (repeat_string "─" (Z.to_nat (Z.max (contentWidth - 2) 10)))]];
       Box None
         (if running worker then
            (if (0 <? length recentLogs)%nat then map log_line recentLogs
             else [Text (c_textDim colors) false [Str "(initializing...)"]])
            ++ match subagent with
               | Some sa => [subagent_standard colors sa]
               | None => []
               end
          else [Text (c_textDim colors) false [Str "(not running)"]])].

(** What the aggregated display shows of one worker: the line of
    `hivecode workers list` with the subagent line, and the two cards. *)
Definition subagent_line (worker : WorkerInfo) : list string :=
  match info_status worker ≫= subagent with
  | Some sa => ["      └─ [" +:+ sa_name sa +:+ "] " +:+ sa_status sa +:+ ": "
                +:+ or_default (sa_message sa) ""]
  | None => []
  end.

Definition display (columns : option Z) (colors : InkColors) (logs : list string)
    (selected : bool) (worker : WorkerInfo) : list string * ink * ink :=
  (worker_line worker :: subagent_line worker,
   WorkerCard columns colors logs worker selected true,
   WorkerCard columns colors logs worker selected false).

(** A status document with its `percent` replaced. *)
Definition with_percent (p : option Z) (st : WorkerStatus) : WorkerStatus :=
  mkWorkerStatus (status st) (branch st) (current st) p (subagent st).

Definition info_with_percent (p : option Z) (worker : WorkerInfo) : WorkerInfo :=
  mkWorkerInfo (info_id worker) (sessionName worker) (worktreePath worker)
    (logPath worker) (running worker) (with_percent p <$> info_status worker).

(** ** embedded/keybindings *)

Module Keys.

(** `TmuxColors` of the theme, as far as the status bar uses them. *)
Record TmuxColors := mkTmuxColors {
  statusFg : string;
  brand : string;
  gitBranch : string;
  textSecondary : string;
  textDim : string;
}.

(** The tmux commands the bindings are made of. *)
Inductive command :=
| SetStatusRight (session value : string)      (* set-option -t S status-right V *)
| SwitchClientTable (table : string)           (* switch-client -T table *)
| SwitchClientTarget (session : string)        (* switch-client -t S *)
| ResizePaneZoom (target : option string)      (* resize-pane -Z [-t target] *)
| IfHasSession (session : string) (yes no : command)
    (* if-shell "tmux has-session -t 'S' 2>/dev/null" "yes" "no" *)
| DisplayMessage (message : string)
| RunShell (shell_cmd : string)
| SelectPane (direction : string)
| DisplayPopup (arguments : string).

(** The key tables of the server: (table, key) to the bound sequence. *)
Abbreviation bindings := (gmap (string * string) (list command)).

(** One `tmux bind-key -T table key cmd1 \; cmd2 ..` request. *)
Record request := mkRequest {
  r_table : string;
  r_key : string;
  r_commands : list command;
}.

Definition DQ : string := String (ascii_of_nat 34) "".
Definition BACKSLASH : string := String (ascii_of_nat 92) "".

(** The strings as `execSync` receives them (the shell then reads the two
    backslashes inside the double quotes as one). *)
Definition getStatusBarStrings (theme : TmuxColors) : string * string :=
  let normalStatusRight :=
    DQ +:+ "#[fg=" +:+ textDim theme +:+ "][^" +:+ BACKSLASH +:+ BACKSLASH
    +:+ "]mode#[default] #[fg="
    +:+ gitBranch theme
    +:+ "]#(git -C #{pane_current_path} branch --show-current 2>/dev/null)#[default] #[fg="
    +:+ textSecondary theme +:+ "]%H:%M#[default] " +:+ DQ in
  let hiveModeStatusRight :=
    DQ +:+ "#[fg=" +:+ brand theme +:+ ",bold]▶#[default] #[fg=" +:+ statusFg theme
    +:+ "][w]#[fg=" +:+ textSecondary theme +:+ "]toggle #[fg=" +:+ statusFg theme
    +:+ "][1-4]#[fg=" +:+ textSecondary theme +:+ "]worker #[fg=" +:+ statusFg theme
    +:+ "][t]#[fg=" +:+ textSecondary theme +:+ "]theme #[fg=" +:+ statusFg theme
    +:+ "][Esc]#[fg=" +:+ textSecondary theme +:+ "]exit#[default] " +:+ DQ in
  (normalStatusRight, hiveModeStatusRight).

(** `for (let i = lo; i <= hi; i++) body(i)` over a state. *)
Fixpoint for_state {S} (fuel : nat) (i hi : Z) (body : Z -> S -> S) (s : S) : S :=
  match fuel with
  | O => s
  | S n => if i <=? hi then for_state n (i + 1) hi body (body i s) else s
  end.

(** `exitHiveMode`: restore the normal status bar and return to the root
    table. *)
Definition exitHiveMode (sessionName normalStatusRight : string) : list command :=
  [SetStatusRight sessionName normalStatusRight; SwitchClientTable "root"].

Section Setup.
(** Whether the server takes a `bind-key` request; `run` swallows the
    failure when it does not. *)
Variable accepts : request -> bool.

(** `run("tmux bind-key ...")`: try, and ignore the error. *)
Definition run (r : request) (b : bindings) : bindings :=
  if accepts r then <[(r_table r, r_key r) := r_commands r]> b else b.

Definition bind (key : string) (cmds : list command) : bindings -> bindings :=
  run (mkRequest "prefix" key cmds).

Definition bindHive (key : string) (cmds : list command) : bindings -> bindings :=
  run (mkRequest "hive" key cmds).

Definition worker_attach (projectName : string) (i : Z) : command :=
  let workerSession := "hive-" +:+ projectName +:+ "-worker-" +:+ pretty i in
  IfHasSession workerSession
    (SwitchClientTarget workerSession)
    (DisplayMessage ("Worker-" +:+ pretty i +:+ " not running")).

Definition setupKeybindings (theme : TmuxColors) (sessionName projectName : string)
    (b0 : bindings) : bindings :=
  let '(normalStatusRight, hiveModeStatusRight) := getStatusBarStrings theme in
  (* Ctrl+\ enters the mode *)
  let b := run (mkRequest "root" ("C-" +:+ BACKSLASH +:+ BACKSLASH)
                  [SetStatusRight sessionName hiveModeStatusRight;
                   SwitchClientTable "hive"]) b0 in
  let exitHiveMode := exitHiveMode sessionName normalStatusRight in
  let b := bindHive "w"
             (ResizePaneZoom (Some (sessionName +:+ ":0.0")) :: exitHiveMode) b in
  let b := for_state 4 1 4
             (fun i => bindHive (pretty i) (worker_attach projectName i :: exitHiveMode))
             b in
  let b := bindHive "q" (SwitchClientTarget sessionName :: exitHiveMode) b in
  let b := bindHive "t"
             (RunShell ("hivecode theme toggle --session '" +:+ sessionName +:+ "'")
              :: exitHiveMode) b in
  let b := bindHive "Escape" exitHiveMode b in
  let b := run (mkRequest "hive" "Any" exitHiveMode) b in
  (* prefix table *)
  let b := bind "h" [SelectPane "-L"] b in
  let b := bind "l" [SelectPane "-R"] b in
  let b := for_state 4 1 4 (fun i => bind (pretty i) [worker_attach projectName i]) b in
  let b := bind "w" [ResizePaneZoom (Some (sessionName +:+ ":0.0"))] b in
  let b := bind "D" [ResizePaneZoom None] b in
  let b := bind "b" [SwitchClientTarget sessionName] b in
  let b := for_state 4 1 4
             (fun i => run (mkRequest "prefix" "b" [SwitchClientTarget sessionName])) b in
  let b := bind "S"
             [DisplayPopup ("-E -w 60 -h 20 " +:+ DQ
                +:+ "hivecode status; echo ''; echo 'Press any key to close'; read -n 1"
                +:+ DQ)] b in
  bind "R"
    [DisplayPopup ("-E -w 60 -h 10 " +:+ DQ
       +:+ "hivecode workers kill && hivecode workers up; echo ''; echo 'Press any key to close'; read -n 1"
       +:+ DQ)] b.

End Setup.

(** *** The dispatcher of the host, reduced to what the bindings touch *)

Record client := mkClient {
  key_table : string;                 (* the table the next key is looked up in *)
  attached : string;                  (* the session the client shows *)
  status_right : gmap string string;  (* per session *)
  zoom_toggles : list (option string);
  messages : list string;
  shell_runs : list string;
}.

Section Dispatch.
(** `tmux has-session -t S` as the host answers it. *)
Variable has_session : string -> bool.

Fixpoint exec (c : command) (cl : client) : client :=
  match c with
  | SetStatusRight s v =>
      mkClient (key_table cl) (attached cl) (<[s := v]> (status_right cl))
        (zoom_toggles cl) (messages cl) (shell_runs cl)
  | SwitchClientTable t =>
      mkClient t (attached cl) (status_right cl) (zoom_toggles cl) (messages cl)
        (shell_runs cl)
  | SwitchClientTarget s =>
      mkClient (key_table cl) s (status_right cl) (zoom_toggles cl) (messages cl)
        (shell_runs cl)
  | ResizePaneZoom t =>
      mkClient (key_table cl) (attached cl) (status_right cl)
        (zoom_toggles cl ++ [t]) (messages cl) (shell_runs cl)
  | IfHasSession s yes no => if has_session s then exec yes cl else exec no cl
  | DisplayMessage m =>
      mkClient (key_table cl) (attached cl) (status_right cl) (zoom_toggles cl)
        (messages cl ++ [m]) (shell_runs cl)
  | RunShell sh =>
      mkClient (key_table cl) (attached cl) (status_right cl) (zoom_toggles cl)
        (messages cl) (shell_runs cl ++ [sh])
  | SelectPane _ => cl
  | DisplayPopup _ => cl
  end.

(** A bound sequence `c1 \; c2 \; ..` runs left to right, to its end: a
    command the host would refuse is not part of this model. *)
Definition exec_sequence (cmds : list command) (cl : client) : client :=
  foldl (fun acc c => exec c acc) cl cmds.



End Dispatch.


(** The action a key of the hive table stands for; no action for Escape
    and for every other key. *)
Definition hive_action (sessionName projectName key : string) : list command :=
  match key with
  | "w" => [ResizePaneZoom (Some (sessionName +:+ ":0.0"))]
  | "1" => [worker_attach projectName 1]
  | "2" => [worker_attach projectName 2]
  | "3" => [worker_attach projectName 3]
  | "4" => [worker_attach projectName 4]
  | "q" => [SwitchClientTarget sessionName]
  | "t" => [RunShell ("hivecode theme toggle --session '" +:+ sessionName +:+ "'")]
  | _ => []
  end.

Definition sample_theme : TmuxColors :=
  mkTmuxColors "#ffffff" "#ffc107" "#2196f3" "#888888" "#666666".


End Keys.

(** ** Scenarios on the sample runtime and host *)

(** Slot 1 is running and its status file holds the document with
    percent 150. *)
Definition world_percent_150 : world :=
  set_sessions {[ "hive-proj-worker-1" := mkSession "/home/u/proj" None true [] ]}
    (Sample.with_file "/home/u/proj/.hive/status/worker-1.json" Sample.status_doc
       Sample.empty_world).

(** The same world while the document is half written. *)
Definition world_half_written : world :=
  set_sessions {[ "hive-proj-worker-1" := mkSession "/home/u/proj" None true [] ]}
    (Sample.with_file "/home/u/proj/.hive/status/worker-1.json" Sample.status_doc_half
       Sample.empty_world).

Definition sample_colors : InkColors :=
  mkInkColors "yellow" "white" "gray" "white" "gray" "green" "red" "yellow" "cyan".

(** Slot 2 has a session, and the host refuses `send-keys`. *)
Definition world_with_session_2 : world :=
  set_sessions {[ "hive-proj-worker-2" := mkSession "/home/u/proj" None true [] ]}
    Sample.empty_world.

Definition host_refusing_send_keys : Host := {|
  tmux_rejects := fun _ c => match c with SendKeys _ _ => true | _ => false end;
  git_worktree_add := fun f g => Some (<[g_path g := Dir 4096]> f);
|}.

(** The worktree of slot 1 exists. *)
Definition world_with_worktree_1 : world :=
  set_fs {[ "/home/u/.worktrees/proj/worker-1" := Dir 4096 ]} Sample.empty_world.

(** Two worlds agree on everything but the console. *)
Definition same_but_console (w w' : world) : Prop :=
  cwd w = cwd w' /\ fs w = fs w' /\ sessions w = sessions w' /\
  git_calls w = git_calls w'.

(** A computation that neither reads the console nor lets it influence
    what it does to the rest of the world. *)
Definition console_blind {A} (m : M A) : Prop :=
  forall w w', same_but_console w w' ->
    fst (m w) = fst (m w') /\ same_but_console (snd (m w)) (snd (m w')).

(** Two outcomes agree: both return, or both throw the same error. *)
Definition same_outcome {A B} (a : result A) (b : result B) : Prop :=
  match a, b with
  | Val _, Val _ => True
  | Exn e1, Exn e2 => e1 = e2
  | _, _ => False
  end.

Definition NL : string := String "010"%char "".

Definition sample_log : string := "/tmp/hive-proj-worker-1.log".

(** The log of slot 1 holds two lines (4 bytes). *)
Definition world_log_two_lines : world :=
  Sample.with_file sample_log ("a" +:+ NL +:+ "b" +:+ NL) Sample.empty_world.

(** The log was truncated (as `startWorker` does on a restart). *)
Definition world_log_truncated : world :=
  Sample.with_file sample_log "" Sample.empty_world.

(** After the truncation one new line was appended (2 bytes). *)
Definition world_log_new_line : world :=
  Sample.with_file sample_log ("c" +:+ NL) Sample.empty_world.

(** The global configuration says dark and the local file is corrupt. *)
Definition world_corrupt_local_config : world :=
  Sample.with_file "/home/u/proj/.hive/config.json" "{theme"
    (Sample.with_file "/home/u/.config/hivecode/config.json" (Sample.config_doc "dark")
       Sample.empty_world).

(** ** What the readers answer: closed forms *)

Section ReaderModel.
Context `{RT : Runtime} `{HT : Host}.

(** What `sessionExists` answers in a world. *)
Definition session_alive (name : string) (w : world) : bool :=
  if tmux_rejects (sessions w) (HasSession name) then false
  else match sessions w !! name with Some _ => true | None => false end.

(** The path `readWorkerStatus` reads. *)
Definition status_file (hiveDir : string) (workerId : Z) : string :=
  path_join [hiveDir; "status"; "worker-" +:+ pretty workerId +:+ ".json"].

(** What `readWorkerStatus` answers in a world. *)
Definition status_on_disk (hiveDir : string) (workerId : Z) (w : world)
  : option WorkerStatus :=
  match fs w !! status_file hiveDir workerId with
  | Some (File content) => parse_status content
  | _ => None
  end.

(** The record `getWorkersInfo` pushes for slot [i]. *)
Definition worker_info (w : world) (i : Z) : WorkerInfo :=
  let config := project_config (cwd w) in
  mkWorkerInfo i
    (getWorkerSessionName (projectName config) i)
    (getWorktreePath (worktreeBase config) i)
    (getWorkerLogPath (projectName config) i)
    (session_alive (getWorkerSessionName (projectName config) i) w)
    (status_on_disk (hiveDir config) i w).

(** The fields of a record that name the slot. *)
Definition identity_fields (i : WorkerInfo) : Z * string * string * string :=
  (info_id i, sessionName i, worktreePath i, logPath i).

(** The naming functions applied to a project root and a slot. *)
Definition slot_names (root : string) (i : Z) : Z * string * string * string :=
  (i,
   getWorkerSessionName (path_basename root) i,
   getWorktreePath
     (path_join [path_dirname root; ".worktrees"; path_basename root]) i,
   getWorkerLogPath (path_basename root) i).

(** What `createWorktree` does to a world: ensure the base directory,
    return the path when the directory is there, otherwise ask git once and
    look again. *)
Definition createWorktree_outcome (root base : string) (workerId : Z)
    (branch : option string) (w : world) : result string * world :=
  let path := getWorktreePath base workerId in
  let w0 :=
    match fs w !! base with
    | Some _ => w
    | None => set_fs (<[base := Dir fresh_dir_size]> (fs w)) w
    end in
  match fs w0 !! path with
  | Some _ => (Val path, w0)
  | None =>
      let g := mkGitCall root path
                 (or_default branch ("worker-" +:+ pretty workerId +:+ "-workspace")) in
      match git_worktree_add (fs w0) g with
      | None => (Val root, add_git_call g w0)
      | Some f =>
          (Val (match f !! path with Some _ => path | None => root end),
           set_fs f (add_git_call g w0))
      end
  end.

End ReaderModel.

Section HookModel.
Context `{RT : Runtime} `{HT : Host}.

(** What `readConfigFile` answers in a world. *)
Definition config_on_disk (path : string) (w : world) : HiveConfig :=
  match fs w !! path with
  | Some (File content) => default ∅ (parse_config content)
  | _ => ∅
  end.

(** The local level `getMergedConfig` reads for an optional project root. *)
Definition local_level (projectRoot : option string) (w : world) : HiveConfig :=
  match truthy projectRoot with
  | Some root => config_on_disk (getLocalConfigPath root) w
  | None => ∅
  end.

(** What one `pollLog` leaves in the hook, given the node at the log path. *)
Definition tail_after (st : LogTail) (n : option node) : LogTail :=
  match n with
  | Some (File content) =>
      if Z.of_nat (String.length content) >? lastSize st
      then mkLogTail (recent_lines content) (Z.of_nat (String.length content))
      else st
  | _ => st
  end.

End HookModel.

(** The console after printing some lines. *)
Definition print_lines (ls : list string) (w : world) : world :=
  foldl (fun acc l => add_console l acc) w ls.

(** * Further code of the repository *)

(** ** workers.ts: the operations on all workers *)

(** `for (let i = lo; i <= hi; i++) body(i)` *)
Fixpoint for_do (fuel : nat) (i hi : Z) (body : Z -> M unit) : M unit :=
  match fuel with
  | O => ret tt
  | S n => if i <=? hi then body i;; for_do n (i + 1) hi body else ret tt
  end.


Section WorkersAll.
Context `{RT : Runtime} `{HT : Host}.




(** The text `sendWorkerPrompt` types into the session of a worker. *)
Definition worker_prompt (workerId : Z) : string :=
  "Read .hive/tasks/worker-" +:+ pretty workerId
  +:+ ".md for your task, then start working. Update .hive/status/worker-"
  +:+ pretty workerId +:+ ".json when done.".

Definition sendWorkerPrompt (workerId : Z) : M unit :=
  let* config := getProjectConfig in
  let sessionName := getWorkerSessionName (projectName config) workerId in
  let* alive := sessionExists sessionName in
  if negb alive then
    console_error ("Worker-" +:+ pretty workerId +:+ " is not running")
  else
    try_catch
      (execSync_tmux (SendKeys sessionName (worker_prompt workerId));;
       console_log ("  Prompt sent to Worker-" +:+ pretty workerId))
      (fun error =>
         console_error ("  Failed to send prompt to Worker-" +:+ pretty workerId
                        +:+ ": " +:+ error_text error)).

Definition sendAllWorkerPrompts : M unit :=
  console_log (ESC +:+ "[34m🐝 Sending prompts to Workers" +:+ ESC +:+ "[0m");;
  console_log "";;
  for_do (Z.to_nat WORKER_COUNT) 1 WORKER_COUNT
    (fun i =>
       let* config := getProjectConfig in
       let sessionName := getWorkerSessionName (projectName config) i in
       let* alive := sessionExists sessionName in
       if alive then sendWorkerPrompt i else ret tt);;
  console_log "";;
  console_log (ESC +:+ "[32m✅ Prompts sent" +:+ ESC +:+ "[0m").

End WorkersAll.

(** The body of `startWorker` once `getProjectConfig()` has answered. *)
Definition startWorker_with `{RT : Runtime} `{HT : Host}
    (config : ProjectConfig) (workerId : Z) : M bool :=
  let sessionName := getWorkerSessionName (projectName config) workerId in
  let* alive := sessionExists sessionName in
  if alive then
    console_log ("  Worker-" +:+ pretty workerId +:+ " already running");;
    ret true
  else
    let* worktreePath := createWorktree (projectRoot config) (worktreeBase config)
                           workerId None in
    let logPath := getWorkerLogPath (projectName config) workerId in
    writeFileSync logPath "";;
    try_catch
      (execSync_tmux (NewSession sessionName worktreePath);;
       execSync_tmux (PipePane sessionName ("cat >> " +:+ logPath));;
       execSync_tmux (SetMouseOn sessionName);;
       execSync_tmux (SendKeys sessionName "claude --dangerously-skip-permissions");;
       console_log ("  Worker-" +:+ pretty workerId +:+ " started (" +:+ sessionName +:+ ")");;
       ret true)
      (fun error =>
         console_error ("  Failed to start Worker-" +:+ pretty workerId +:+ ": "
                        +:+ error_text error);;
         ret false).

(** ** embedded/layout: the name of the embedded session *)

Definition getEmbeddedSessionName (projectName : string) : string :=
  "hivecode-" +:+ projectName.

Section EmbeddedSession.
Context `{RT : Runtime} `{HT : Host}.

Definition embeddedSessionExists (projectName : string) : M bool :=
  let sessionName := getEmbeddedSessionName projectName in
  try_catch (execSync_tmux (HasSession sessionName);; ret true)
            (fun _ => ret false).

End EmbeddedSession.

(** ** Relations between the world before and after a run *)

(** Every run of [m] takes a world to one related by [R]. *)
Definition steps {A} (R : world -> world -> Prop) (m : M A) : Prop :=
  forall w, R w (snd (m w)).

(** Filesystem and git requests are as before. *)
Definition same_files (w w' : world) : Prop :=
  fs w' = fs w /\ git_calls w' = git_calls w.

(** Every session but the named one is as before. *)
Definition only_session (name : string) (w w' : world) : Prop :=
  forall n, n <> name -> sessions w' !! n = sessions w !! n.

(** No session was removed. *)
Definition sessions_kept (w w' : world) : Prop :=
  forall n, is_Some (sessions w !! n) -> is_Some (sessions w' !! n).

(** The same sessions exist (their contents may differ). *)
Definition same_session_names (w w' : world) : Prop :=
  forall n, is_Some (sessions w' !! n) <-> is_Some (sessions w !! n).

(** Only sessions of the workers of the project may differ. *)
Definition only_worker_sessions `{RT : Runtime} (w w' : world) : Prop :=
  cwd w' = cwd w /\
  forall n,
    (forall i, n <> getWorkerSessionName (path_basename (cwd w)) i) ->
    sessions w' !! n = sessions w !! n.

(** No session was created. *)
Definition no_session_added (w w' : world) : Prop :=
  forall n, sessions w !! n = None -> sessions w' !! n = None.


(** The host takes every command the sessions allow. *)
Definition cooperative `{HT : Host} : Prop :=
  forall ss c, tmux_rejects ss c = false.

(** When [m] returns from a world in [P], value and world satisfy [Q]. *)
Definition hoare {A} (P : world -> Prop) (m : M A) (Q : A -> world -> Prop) : Prop :=
  forall w, P w ->
    match m w with
    | (Val a, w') => Q a w'
    | (Exn _, _) => True
    end.

(** From a world in [P], [m] returns, with value and world in [Q]. *)
Definition total {A} (P : world -> Prop) (m : M A) (Q : A -> world -> Prop) : Prop :=
  forall w, P w -> exists a w', m w = (Val a, w') /\ Q a w'.


(** What an operation on one worker may do to the sessions: the working
    directory of the process stays, sessions under other names stay as they
    are, and no session goes away. *)
Definition worker_step (name : string) (w w' : world) : Prop :=
  cwd w' = cwd w /\
  (forall n, n <> name -> sessions w' !! n = sessions w !! n) /\
  (forall n, is_Some (sessions w !! n) -> is_Some (sessions w' !! n)).

(** The session a tmux command addresses. *)
Definition tmux_target (c : tmux_cmd) : string :=
  match c with
  | HasSession t | NewSession t _ | PipePane t _ | SetMouseOn t | SendKeys t _
  | KillSession t => t
  end.

Definition is_kill (c : tmux_cmd) : bool :=
  match c with KillSession _ => true | _ => false end.

(** What the broadcasts may do to the world, by kind. *)
Definition kill_step `{RT : Runtime} (w w' : world) : Prop :=
  same_files w w' /\ only_worker_sessions w w' /\ no_session_added w w'.

Definition advisory_step `{RT : Runtime} (w w' : world) : Prop :=
  same_files w w' /\ only_worker_sessions w w' /\ same_session_names w w'.

Definition start_step `{RT : Runtime} (w w' : world) : Prop :=
  only_worker_sessions w w' /\ sessions_kept w w'.


(** A session after some text was typed into it. *)
Definition typed (keys : string) (s : session) : session :=
  mkSession (s_cwd s) (s_pipe s) (s_mouse s) (s_keys s ++ [keys]).



(** ** config: writing *)

(** `JSON.stringify(config, null, 2)` *)
Class Serializer := {
  stringify_config : HiveConfig -> string;
}.

(** The two `Error`s `setConfigValue` throws. *)
Inductive config_error :=
| InvalidTheme (value : string)
| UnknownKey (key : string).

Definition config_error_message (e : config_error) : string :=
  match e with
  | InvalidTheme value =>
      "Invalid theme value: " +:+ value +:+ ". Must be 'light', 'dark', or 'auto'."
  | UnknownKey key => "Unknown config key: " +:+ key
  end.

(** `options: { local?: boolean; projectRoot?: string }` *)
Record SetOptions := mkSetOptions {
  opt_local : bool;
  opt_projectRoot : option string;
}.

Section ConfigWrite.
Context `{RT : Runtime} `{HT : Host} `{SR : Serializer}.

Definition writeConfigFile (path : string) (config : HiveConfig) : M unit :=
  let dir := path_join [path; ".."] in
  let* present := existsSync dir in
  (if negb present then mkdirSync dir else ret tt);;
  writeFileSync path (stringify_config config +:+ NL).

(** `options.local && options.projectRoot ? getLocalConfigPath(..) : GLOBAL_CONFIG_PATH` *)
Definition config_target (options : SetOptions) : string :=
  if opt_local options then
    match truthy (opt_projectRoot options) with
    | Some root => getLocalConfigPath root
    | None => GLOBAL_CONFIG_PATH
    end
  else GLOBAL_CONFIG_PATH.

Definition valid_theme (value : string) : bool :=
  String.eqb value "light" || String.eqb value "dark" || String.eqb value "auto".

(** A thrown `Error` is the left summand of the result; exceptions of the
    filesystem stay exceptions of [M]. *)
Definition setConfigValue (key value : string) (options : SetOptions)
  : M (config_error + unit) :=
  let path := config_target options in
  let* config := readConfigFile path in
  if String.eqb key "theme" then
    if valid_theme value then
      writeConfigFile path (<["theme" := value]> config);;
      ret (inr tt)
    else ret (inl (InvalidTheme value))
  else ret (inl (UnknownKey key)).


Definition getConfigPaths (projectRoot : option string) : string * option string :=
  (GLOBAL_CONFIG_PATH,
   match truthy projectRoot with
   | Some root => Some (getLocalConfigPath root)
   | None => None
   end).




(** From [w] to [w'] only the nodes at [paths] may differ. *)
Definition only_paths (paths : list string) (w w' : world) : Prop :=
  cwd w' = cwd w /\ sessions w' = sessions w /\
  git_calls w' = git_calls w /\ console w' = console w /\
  forall p, p ∉ paths -> fs w' !! p = fs w !! p.

End ConfigWrite.

(** *** `listConfig` *)

Inductive config_source := SourceGlobal | SourceLocal.

(** `{ key, value, source }` *)
Record config_entry := mkEntry {
  e_key : string;
  e_value : string;
  e_source : config_source;
}.





(** `r => r.key === key` *)
Definition entry_with (key : string) (r : config_entry) : bool :=
  String.eqb (e_key r) key.

Section ConfigList.
Context `{RT : Runtime} `{HT : Host}.


End ConfigList.

(** A serializer for the sample runtime, and a runtime that parses what it
    writes for the two themes. *)
Module SampleConfig.

Definition stringify (config : HiveConfig) : string :=
  match config !! "theme" with
  | Some theme => Sample.config_doc theme
  | None => "{}"
  end.

#[local] Instance serializer : Serializer := {| stringify_config := stringify |}.

(** `join`, with a final `..` resolved as node does. *)
Definition join (l : list string) : string :=
  match l with
  | [p; ".."] => Sample.dirname p
  | _ => Sample.join l
  end.

#[local] Instance runtime : Runtime := {|
  path_join := join;
  path_basename := Sample.basename;
  path_dirname := Sample.dirname;
  parse_status := fun _ => None;
  parse_config := fun s =>
    if String.eqb s (Sample.config_doc "dark" +:+ NL) then Some {[ "theme" := "dark" ]}
    else if String.eqb s (Sample.config_doc "light" +:+ NL) then Some {[ "theme" := "light" ]}
    else if String.eqb s ("{}" +:+ NL) then Some ∅
    else None;
  error_text := fun _ => "error";
  fresh_dir_size := 4096;
  os_homedir := "/home/u";
|}.

(** The global file says dark; there is no local file. *)
Definition world_global_dark : world :=
  Sample.with_file "/home/u/.config/hivecode/config.json"
    (Sample.config_doc "dark" +:+ NL) Sample.empty_world.


End SampleConfig.

(** ** theme/colors.ts, theme/index.ts *)

(** `TmuxColors` of a theme, all of it. *)
Record TmuxPalette := mkTmuxPalette {
  t_statusBg : string;
  t_statusFg : string;
  t_brand : string;
  t_borderActive : string;
  t_borderInactive : string;
  t_gitBranch : string;
  t_success : string;
  t_warning : string;
  t_error : string;
  t_textSecondary : string;
  t_textDim : string;
}.

Record Theme := mkTheme {
  mode : string;
  tmux_colors : TmuxPalette;
  ink_colors : InkColors;
}.

Definition darkTheme : Theme :=
  mkTheme "dark"
    (mkTmuxPalette "#1e1e1e" "#ffffff" "#ffc107" "#ffc107" "#444444" "#2196f3"
       "#4caf50" "#ff9800" "#f44336" "#888888" "#666666")
    (mkInkColors "yellow" "green" "gray" "white" "gray" "green" "red" "yellow" "cyan").

Definition lightTheme : Theme :=
  mkTheme "light"
    (mkTmuxPalette "#f5f5f5" "#1e1e1e" "#b8860b" "#b8860b" "#cccccc" "#1565c0"
       "#2e7d32" "#e65100" "#c62828" "#555555" "#888888")
    (mkInkColors "yellowBright" "green" "blackBright" "black" "blackBright" "green"
       "red" "yellowBright" "cyan").

(** The value of a decimal digit. *)
Definition digit_value (c : ascii) : option Z :=
  let n := Z.of_nat (nat_of_ascii c) in
  if (48 <=? n) && (n <=? 57) then Some (n - 48) else None.

(** The digits at the head of [s], read from the left; [acc] is [None]
    until a digit was read. *)
Fixpoint parse_digits (acc : option Z) (s : string) : option Z :=
  match s with
  | String c rest =>
      match digit_value c with
      | Some d => parse_digits (Some (default 0 acc * 10 + d)) rest
      | None => acc
      end
  | EmptyString => acc
  end.

(** `parseInt(s, 10)`; [None] is NaN.  The number is exact here, where
    JavaScript rounds it to a double. *)
Definition parseInt (s : string) : option Z :=
  match trim_start s with
  | String "-" rest => Z.opp <$> parse_digits None rest
  | String "+" rest => parse_digits None rest
  | t => parse_digits None t
  end.

(** `mode === 'light' ? lightTheme : darkTheme` *)
Definition theme_of (mode : string) : Theme :=
  if String.eqb mode "light" then lightTheme else darkTheme.

(** `theme === 'light' || theme === 'dark'`, on a value that may be undefined. *)
Definition light_or_dark (value : option string) : option string :=
  match value with
  | Some v => if String.eqb v "light" || String.eqb v "dark" then Some v else None
  | None => None
  end.

Section Theme.
Context `{RT : Runtime} `{HT : Host}.
(** `process.env` *)
Variable env : gmap string string.

Definition detectTerminalTheme : string :=
  let by_program :=
    if bool_decide (env !! "TERM_PROGRAM" = Some "Apple_Terminal")
    then "light" else "dark" in
  match truthy (env !! "COLORFGBG") with
  | Some colorfgbg =>
      let parts := split_on ";" colorfgbg in
      match parseInt (or_default (parts !! 1%nat) (List.last parts "")) with
      | Some bg => if 7 <=? bg then "light" else "dark"
      | None => by_program
      end
  | None => by_program
  end.

(** The mode `initTheme` settles on. *)
Definition initTheme_mode (override projectRoot : option string) : M string :=
  match truthy override with
  | Some o => ret o
  | None =>
      match light_or_dark (env !! "HIVECODE_THEME") with
      | Some m => ret m
      | None =>
          let* config := getMergedConfig projectRoot in
          match light_or_dark (config !! "theme") with
          | Some m => ret m
          | None => ret detectTerminalTheme
          end
      end
  end.

(** `initTheme`: the theme returned is the one `currentTheme` holds from
    then on, so `getTheme()` and `getThemeMode()` after it read this value. *)
Definition initTheme (override projectRoot : option string) : M Theme :=
  let* mode := initTheme_mode override projectRoot in
  ret (theme_of mode).

End Theme.

(** ** cli.ts: the `theme` commands *)



Section ThemeCommands.
Context `{RT : Runtime} `{HT : Host} `{SR : Serializer}.
Variable env : gmap string string.



(** The theme `hivecode theme show` would report in [w]. *)
Definition shown_theme (w : world) : result Theme :=
  fst (initTheme env None (Some (cwd w)) w).

End ThemeCommands.


(** `process.env` of a terminal that reports its colours. *)
Definition env_fgbg (value : string) : gmap string string :=
  {[ "COLORFGBG" := value ]}.

(** ** useWorkerLogs over a run of the dashboard *)

(** What the hook may hold: at most [MAX_LINES] lines, none of them blank,
    and a size that is a size. *)
Definition tail_ok (st : LogTail) : Prop :=
  (length (lines st) <= MAX_LINES)%nat /\
  Forall (fun line => nonblank line = true) (lines st) /\
  0 <= lastSize st.

Section LogRun.
Context `{RT : Runtime} `{HT : Host}.

(** The value a poll leaves in the hook; a poll that threw would leave the
    hook as it was. *)
Definition after_poll (logPath : string) (st : LogTail) (w : world) : LogTail :=
  match fst (pollLog logPath st w) with
  | Val st' => st'
  | Exn _ => st
  end.

(** The hook of a worker over the worlds its polls find: the initial read
    in [start], then one poll in each world of [ticks]. *)
Definition useWorkerLogs_over (projectName : string) (workerId : Z)
    (start : world) (ticks : list world) : LogTail :=
  foldl (after_poll (getWorkerLogPath projectName workerId))
        (after_poll (getWorkerLogPath projectName workerId) logs_reset start)
        ticks.

End LogRun.

(** ** dashboard/App: the keyboard shortcuts *)

(** What the handler of `useInput` does with a key. *)
Inductive app_action :=
| Exit                       (* exit() *)
| Attach (workerId : Z)      (* select the worker, exit, then attachWorker *)
| NoAction.

Section App.
Context `{RT : Runtime} `{HT : Host}.

(** The handler; [ctrl] is `key.ctrl`.  `parseInt` of one of the four
    digits is a number, so the NaN branch is never taken. *)
Definition useInput (workers : list WorkerInfo) (input : string) (ctrl : bool)
  : app_action :=
  if String.eqb input "q" || (ctrl && String.eqb input "c") then Exit
  else if bool_decide (input ∈ ["1"; "2"; "3"; "4"]) then
    match parseInt input with
    | Some workerId => Attach workerId
    | None => NoAction
    end
  else if String.eqb input "a" then
    match List.find running workers with
    | Some worker => Attach (info_id worker)
    | None => NoAction
    end
  else NoAction.

(** `attachWorker`: the session `tmux attach` is spawned on, or none with
    the complaint printed.  The spawned process takes the terminal over and
    is not followed. *)
Definition attachWorker (workerId : Z) : M (option string) :=
  let* config := getProjectConfig in
  let sessionName := getWorkerSessionName (projectName config) workerId in
  let* alive := sessionExists sessionName in
  if negb alive then
    console_error (ESC +:+ "[31mWorker-" +:+ pretty workerId +:+ " is not running"
                   +:+ ESC +:+ "[0m");;
    ret None
  else ret (Some sessionName).

End App.

(** ** A worker session as `startWorker` leaves it *)

(** The session right after a successful start in directory [d], logging
    to [log]: piped, mouse on, and the assistant launched. *)
Definition fresh_session (d log : string) : session :=
  mkSession d (Some ("cat >> " +:+ log)) true
    ["claude --dangerously-skip-permissions"].

(** Slot 2 has a session in which somebody has typed. *)
Definition world_with_busy_session_2 : world :=
  set_sessions
    {[ "hive-proj-worker-2" :=
         mkSession "/home/u/proj" None false ["ls"; "git status"] ]}
    Sample.empty_world.

(** ** WorkerCard: what the card reads *)

(** `logLineWidth` of the card for a terminal of [columns] columns. *)
Definition card_line_width (columns : option Z) : Z :=
  let termWidth := match columns with Some 0 | None => 80 | Some c => c end in
  Z.max (Z.max (termWidth - 4) 20 - 2) 15.

(** The log lines as the card shows them: the last five (compact) or four,
    each cut to the line width. *)
Definition card_logs (columns : option Z) (compact : bool) (logs : list string)
  : list string :=
  map (slice_prefix (Z.to_nat (card_line_width columns)))
      (slice_last (if compact then 5 else 4) logs).

(** A worker record without the activity of its status document: no
    current task and no subagent. *)
Definition without_activity (worker : WorkerInfo) : WorkerInfo :=
  mkWorkerInfo (info_id worker) (sessionName worker) (worktreePath worker)
    (logPath worker) (running worker)
    ((fun st => mkWorkerStatus (status st) (branch st) None (percent st) None)
       <$> info_status worker).

(** A stopped worker whose status document still tells of work. *)
Definition stopped_worker : WorkerInfo :=
  mkWorkerInfo 3 "hive-proj-worker-3" "/home/u/.worktrees/proj/worker-3"
    "/tmp/hive-proj-worker-3.log" false
    (Some (mkWorkerStatus "coding" (Some "feature/x") (Some "writing tests") None
             (Some (mkSubagent "tester" "running" (Some "3 of 9"))))).

(** ** embedded/keybindings: what the setup binds *)

Module KeysSetup.
Import Keys.

(** The key of the root table that enters the mode, as the request names it. *)
Definition MODE_KEY : string := "C-" +:+ BACKSLASH +:+ BACKSLASH.


(** Every (table, key) a request of `setupKeybindings` names. *)
Definition setup_keys : list (string * string) :=
  [("root", MODE_KEY);
   ("hive", "w"); ("hive", "1"); ("hive", "2"); ("hive", "3"); ("hive", "4");
   ("hive", "q"); ("hive", "t"); ("hive", "Escape"); ("hive", "Any");
   ("prefix", "h"); ("prefix", "l");
   ("prefix", "1"); ("prefix", "2"); ("prefix", "3"); ("prefix", "4");
   ("prefix", "w"); ("prefix", "D"); ("prefix", "b"); ("prefix", "S"); ("prefix", "R")].


End KeysSetup.

(** * Theorems *)

(** ** The JavaScript idioms on small inputs *)

Example split_on_newlines :
  split_on "010"%char ("a" +:+ NL +:+ NL +:+ "b" +:+ NL) = ["a"; ""; "b"; ""].
Proof. reflexivity. Qed.

Example trim_both_ends : trim ("  a b " +:+ NL) = "a b".
Proof. reflexivity. Qed.

Example recent_lines_skip_blank :
  recent_lines ("a" +:+ NL +:+ "  " +:+ NL +:+ "b" +:+ NL) = ["a"; "b"].
Proof. reflexivity. Qed.

Example slice_last_two : slice_last 2 [1; 2; 3] = [2; 3] /\ slice_last 5 [1; 2] = [1; 2].
Proof. split; reflexivity. Qed.

Example padEnd_running : padEnd 8 "running" = "running " /\ padEnd 3 "stopped" = "stopped".
Proof. split; reflexivity. Qed.

Example or_default_falsy :
  or_default None "-" = "-" /\ or_default (Some "") "-" = "-"
  /\ or_default (Some "main") "-" = "main".
Proof. repeat split; reflexivity. Qed.

(** ** Running the readers *)

Section Readers.
Context `{RT : Runtime} `{HT : Host}.

Lemma set_sessions_same w : set_sessions (sessions w) w = w.
Proof. by destruct w. Qed.

Lemma set_fs_same w : set_fs (fs w) w = w.
Proof. by destruct w. Qed.

Lemma existsSync_run p w :
  existsSync p w = (Val (match fs w !! p with Some _ => true | None => false end), w).
Proof. reflexivity. Qed.

Lemma getProjectConfig_run w :
  getProjectConfig w = (Val (project_config (cwd w)), w).
Proof. reflexivity. Qed.

Lemma sessionExists_run name w :
  sessionExists name w = (Val (session_alive name w), w).
Proof.
  unfold sessionExists, session_alive, try_catch, mbind, M_bind, bind,
    execSync_tmux, ret.
  destruct (tmux_rejects (sessions w) (HasSession name)); [done|].
  simpl. destruct (sessions w !! name); [|done].
  by rewrite set_sessions_same.
Qed.

Lemma readWorkerStatus_run hiveDir workerId w :
  readWorkerStatus hiveDir workerId w
  = (Val (status_on_disk hiveDir workerId w), w).
Proof.
  unfold readWorkerStatus, status_on_disk, existsSync, gets, bind,
    try_catch, readFileSync, throw, ret.
  fold (status_file hiveDir workerId).
  destruct (fs w !! status_file hiveDir workerId) as [[content|n]|] eqn:E;
    cbn; rewrite ?E; try done.
  by destruct (parse_status content).
Qed.

Lemma bind_run {A B} (m : M A) (f : A -> M B) w a w' :
  m w = (Val a, w') -> bind m f w = f a w'.
Proof. unfold bind. by intros ->. Qed.

Lemma bind_exn {A B} (m : M A) (f : A -> M B) w e w' :
  m w = (Exn e, w') -> bind m f w = (Exn e, w').
Proof. unfold bind. by intros ->. Qed.

(** A loop whose body only reads the world collects the values of the body
    for lo, lo+1, .. as far as the bound (or the fuel) allows. *)
Lemma for_push_read_only {A} (body : Z -> M A) (g : Z -> A) w hi :
  (forall i, body i w = (Val (g i), w)) ->
  forall fuel i acc,
    for_push fuel i hi body acc w
    = (Val (acc ++ map g (seqZ i (Z.min (Z.of_nat fuel) (Z.max 0 (hi - i + 1))))), w).
Proof.
  intros Hbody. induction fuel as [|n IH]; intros i acc; simpl for_push.
  - rewrite Z.min_l by lia. simpl. by rewrite app_nil_r.
  - destruct (Z.leb_spec i hi) as [Hle|Hgt].
    + rewrite (bind_run _ _ _ _ _ (Hbody i)), IH.
      rewrite (seqZ_cons i) by lia.
      simpl map. rewrite <- app_assoc. simpl app. do 5 f_equal. f_equal; lia.
    + rewrite Z.max_l, Z.min_r by lia. simpl. by rewrite app_nil_r.
Qed.

Lemma getWorkersInfo_run w :
  getWorkersInfo w = (Val (map (worker_info w) [1; 2; 3; 4]), w).
Proof.
  unfold getWorkersInfo, getProjectConfig, gets.
  erewrite bind_run by reflexivity.
  rewrite (for_push_read_only _ (worker_info w)); [reflexivity|].
  intros i.
  erewrite bind_run by apply sessionExists_run.
  erewrite bind_run by apply readWorkerStatus_run.
  reflexivity.
Qed.

(** C2. Reading the status document of any slot in any world never throws;
    when the file is missing the answer is absent, and when the file holds
    text that does not parse the answer is absent as well. *)
Theorem readWorkerStatus_missing_or_malformed_absent hiveDir workerId w :
  (exists r, readWorkerStatus hiveDir workerId w = (Val r, w)) /\
  (fs w !! status_file hiveDir workerId = None ->
   readWorkerStatus hiveDir workerId w = (Val None, w)) /\
  (forall content,
     fs w !! status_file hiveDir workerId = Some (File content) ->
     parse_status content = None ->
     readWorkerStatus hiveDir workerId w = (Val None, w)).
Proof.
  rewrite readWorkerStatus_run. unfold status_on_disk.
  split; [eauto|]. split.
  - by intros ->.
  - by intros content -> ->.
Qed.

(** C9. In every world one aggregation round returns, without changing the
    world, four records whose identity fields (id, session name, worktree
    path, log path) are the naming functions applied to the project root and
    to 1, 2, 3, 4 in this order; sessions and status files play no part. *)
Theorem getWorkersInfo_four_named_slots w :
  exists l,
    getWorkersInfo w = (Val l, w) /\
    length l = 4%nat /\
    map info_id l = [1; 2; 3; 4] /\
    map identity_fields l = map (slot_names (cwd w)) [1; 2; 3; 4].
Proof.
  exists (map (worker_info w) [1; 2; 3; 4]).
  split; [apply getWorkersInfo_run|]. by repeat split.
Qed.

End Readers.

(** Witness for C2: a world without the status file, and a world where the
    file holds a document cut off in the middle. *)
Lemma readWorkerStatus_missing_or_malformed_absent_witness :
  let w1 := Sample.empty_world in
  let w2 := Sample.with_file "/home/u/proj/.hive/status/worker-1.json"
              Sample.status_doc_half Sample.empty_world in
  @readWorkerStatus Sample.runtime "/home/u/proj/.hive" 1 w1 = (Val None, w1) /\
  @readWorkerStatus Sample.runtime "/home/u/proj/.hive" 1 w2 = (Val None, w2).
Proof.
  split.
  - apply (@readWorkerStatus_missing_or_malformed_absent Sample.runtime
             "/home/u/proj/.hive" 1 Sample.empty_world).
    reflexivity.
  - eapply (@readWorkerStatus_missing_or_malformed_absent Sample.runtime
              "/home/u/proj/.hive" 1).
    + reflexivity.
    + reflexivity.
Defined.


(** ** The status aggregator *)

Section Aggregator.
Context `{RT : Runtime} `{HT : Host}.

Lemma useWorkerStatus_poll_run prev w :
  useWorkerStatus_poll prev w = (Val (map (worker_info w) [1; 2; 3; 4]), w).
Proof.
  unfold useWorkerStatus_poll.
  by erewrite bind_run by apply getWorkersInfo_run.
Qed.

Lemma slot_status_snapshot w slot :
  1 <= slot <= 4 ->
  slot_status slot (map (worker_info w) [1; 2; 3; 4])
  = status_on_disk (hiveDir (project_config (cwd w))) slot w.
Proof.
  intros Hslot.
  assert (slot = 1 \/ slot = 2 \/ slot = 3 \/ slot = 4) as Hcases by lia.
  by destruct Hcases as [-> | [-> | [-> | ->]]].
Qed.

Lemma snapshot_lookup w slot :
  1 <= slot <= 4 ->
  map (worker_info w) [1; 2; 3; 4] !! Z.to_nat (slot - 1) = Some (worker_info w slot).
Proof.
  intros Hslot.
  assert (slot = 1 \/ slot = 2 \/ slot = 3 \/ slot = 4) as Hcases by lia.
  by destruct Hcases as [-> | [-> | [-> | ->]]].
Qed.

(** C3, as the code has it. In a poll round in which the status file of a
    slot exists but does not parse, the state after the poll holds no status
    for that slot, whatever the state before the poll held. *)
Theorem useWorkerStatus_poll_malformed_is_absent prev w slot content :
  1 <= slot <= 4 ->
  fs w !! status_file (hiveDir (project_config (cwd w))) slot = Some (File content) ->
  parse_status content = None ->
  exists next,
    useWorkerStatus_poll prev w = (Val next, w) /\
    slot_status slot next = None.
Proof.
  intros Hslot Hfile Hparse. eexists. split; [apply useWorkerStatus_poll_run|].
  rewrite slot_status_snapshot by done.
  unfold status_on_disk. by rewrite Hfile.
Qed.

Lemma for_each_prints {A} (f : A -> list string) (body : A -> M unit) :
  (forall x w, body x w = (Val tt, print_lines (f x) w)) ->
  forall l w, for_each l body w = (Val tt, print_lines (flat_map f l) w).
Proof.
  intros Hbody. induction l as [|x l IH]; intros w; [done|].
  simpl for_each. unfold mbind, M_bind.
  erewrite bind_run by apply Hbody. rewrite IH.
  unfold print_lines. simpl flat_map. by rewrite foldl_app.
Qed.

(** `hivecode workers list` prints, between a header and an empty line, the
    line of each worker followed by its subagent line. *)
Lemma listWorkers_run w :
  listWorkers w
  = (Val tt,
     print_lines
       ([ESC +:+ "[34m🐝 HiveCode Workers" +:+ ESC +:+ "[0m";
         "   Project: " +:+ path_basename (cwd w); ""]
        ++ flat_map (fun worker => worker_line worker :: subagent_line worker)
             (map (worker_info w) [1; 2; 3; 4])
        ++ [""]) w).
Proof.
  unfold listWorkers, mbind, M_bind.
  erewrite bind_run by apply getProjectConfig_run.
  erewrite bind_run by apply getWorkersInfo_run.
  do 3 (erewrite bind_run by reflexivity).
  erewrite bind_run.
  2:{ apply (for_each_prints (fun worker => worker_line worker :: subagent_line worker)).
      intros worker w0. unfold subagent_line.
      erewrite bind_run by reflexivity.
      by destruct (info_status worker) as [[? ? ? ? [sa|]]|]. }
  unfold print_lines. rewrite !foldl_app. reflexivity.
Qed.

(** The display of a worker does not read `percent`. *)
Lemma display_ignores_percent columns colors logs selected q worker :
  display columns colors logs selected (info_with_percent q worker)
  = display columns colors logs selected worker.
Proof.
  unfold display, WorkerCard, worker_line, subagent_line, info_with_percent.
  destruct worker as [i sn wp lp r [st|]]; reflexivity.
Qed.

(** C4, as the code has it. A status document whose percent exceeds 100 is
    accepted: the aggregation round returns it for its slot with the percent
    unchanged, and what the display shows of the worker is the same for
    every value of the percent (the percent is neither shown nor clamped). *)
Theorem percent_over_100_accepted_unchanged w slot content st p :
  1 <= slot <= 4 ->
  fs w !! status_file (hiveDir (project_config (cwd w))) slot = Some (File content) ->
  parse_status content = Some st ->
  percent st = Some p ->
  100 < p ->
  exists l worker,
    getWorkersInfo w = (Val l, w) /\
    l !! Z.to_nat (slot - 1) = Some worker /\
    info_id worker = slot /\
    info_status worker = Some st /\
    (info_status worker ≫= percent) = Some p /\
    forall columns colors logs selected q,
      display columns colors logs selected (info_with_percent q worker)
      = display columns colors logs selected worker.
Proof.
  intros Hslot Hfile Hparse Hp Hover.
  exists (map (worker_info w) [1; 2; 3; 4]), (worker_info w slot).
  split; [apply getWorkersInfo_run|].
  split; [by apply snapshot_lookup|].
  split; [done|].
  assert (info_status (worker_info w slot) = Some st) as Hst.
  { change (info_status (worker_info w slot))
      with (status_on_disk (hiveDir (project_config (cwd w))) slot w).
    unfold status_on_disk. by rewrite Hfile. }
  split; [done|]. split; [by rewrite Hst|].
  intros. apply display_ignores_percent.
Qed.

End Aggregator.

(** The scenarios of the specification on the sample runtime and host. *)
Section AggregatorScenarios.
#[local] Existing Instance Sample.runtime.
#[local] Existing Instance Sample.host.

(** C3 fails on the code: the first round reads the status of slot 1, the
    next round finds the file half written, and the state then holds no
    status for slot 1 instead of the one read before. *)
Lemma useWorkerStatus_poll_forgets_previous :
  exists prev next,
    useWorkerStatus_init world_percent_150 = (Val prev, world_percent_150) /\
    slot_status 1 prev = Some Sample.status_coding /\
    fs world_half_written !! status_file "/home/u/proj/.hive" 1
      = Some (File Sample.status_doc_half) /\
    parse_status Sample.status_doc_half = None /\
    useWorkerStatus_poll prev world_half_written = (Val next, world_half_written) /\
    slot_status 1 next = None /\
    slot_status 1 next <> slot_status 1 prev.
Proof.
  eexists _, _.
  split; [apply getWorkersInfo_run|].
  split; [reflexivity|].
  split; [reflexivity|].
  split; [reflexivity|].
  split; [apply useWorkerStatus_poll_run|].
  split; [reflexivity|].
  discriminate.
Qed.

Lemma useWorkerStatus_poll_malformed_is_absent_witness :
  exists next,
    useWorkerStatus_poll [] world_half_written = (Val next, world_half_written) /\
    slot_status 1 next = None.
Proof.
  apply (useWorkerStatus_poll_malformed_is_absent [] world_half_written 1
           Sample.status_doc_half).
  - lia.
  - reflexivity.
  - reflexivity.
Defined.

(** C4 fails on the code: the percent that reaches the display is 150, not
    100, and the display of the worker is the same as with percent 7, so it
    shows no clamped percentage. *)
Lemma percent_150_is_not_clamped :
  exists l worker,
    getWorkersInfo world_percent_150 = (Val l, world_percent_150) /\
    l !! 0%nat = Some worker /\
    running worker = true /\
    (info_status worker ≫= percent) = Some 150 /\
    (info_status worker ≫= percent) <> Some 100 /\
    fst (fst (display (Some 80) sample_colors [] false worker))
      = ["  " +:+ ESC +:+ "[32m●" +:+ ESC +:+ "[0m Worker-1  running   coding        feature/x"] /\
    display (Some 80) sample_colors [] false worker
      = display (Some 80) sample_colors [] false (info_with_percent (Some 7) worker).
Proof.
  eexists _, _.
  split; [apply getWorkersInfo_run|].
  split; [reflexivity|].
  split; [reflexivity|].
  split; [reflexivity|].
  split; [discriminate|].
  split; reflexivity.
Qed.

Lemma percent_over_100_accepted_unchanged_witness :
  exists l worker,
    getWorkersInfo world_percent_150 = (Val l, world_percent_150) /\
    l !! Z.to_nat (1 - 1) = Some worker /\
    info_id worker = 1 /\
    info_status worker = Some Sample.status_coding /\
    (info_status worker ≫= percent) = Some 150 /\
    forall columns colors logs selected q,
      display columns colors logs selected (info_with_percent q worker)
      = display columns colors logs selected worker.
Proof.
  apply (percent_over_100_accepted_unchanged world_percent_150 1 Sample.status_doc).
  - lia.
  - reflexivity.
  - reflexivity.
  - reflexivity.
  - lia.
Defined.

End AggregatorScenarios.

(** ** The worktree provisioner *)

Section Provisioner.
Context `{RT : Runtime} `{HT : Host}.

Lemma createWorktree_run root base workerId branch w :
  createWorktree root base workerId branch w
  = createWorktree_outcome root base workerId branch w.
Proof.
  unfold createWorktree, createWorktree_outcome, mbind, M_bind.
  erewrite bind_run by apply existsSync_run.
  erewrite bind_run.
  2:{ instantiate (1 := match fs w !! base with
                        | Some _ => w
                        | None => set_fs (<[base := Dir fresh_dir_size]> (fs w)) w
                        end).
      instantiate (1 := tt). unfold mkdirSync.
      by destruct (fs w !! base) as [[c|n]|] eqn:Hbase; cbn; rewrite ?Hbase. }
  set (w0 := match fs w !! base with Some _ => w | None => _ end).
  erewrite bind_run by apply existsSync_run.
  destruct (fs w0 !! getWorktreePath base workerId) as [n|] eqn:Hpath; [done|].
  unfold try_catch, bind, execSync_git, existsSync, gets, ret.
  destruct (git_worktree_add (fs w0) _) as [f|]; [|done].
  cbn. by destruct (f !! getWorktreePath base workerId).
Qed.

(** With the worktree directory in place the call returns its path without
    asking git; the only thing it may do to the world is create the missing
    base directory. *)
Lemma createWorktree_present root base workerId branch w :
  is_Some (fs w !! getWorktreePath base workerId) ->
  fst (createWorktree root base workerId branch w)
  = Val (getWorktreePath base workerId) /\
  git_calls (snd (createWorktree root base workerId branch w)) = git_calls w /\
  is_Some (fs (snd (createWorktree root base workerId branch w))
             !! getWorktreePath base workerId).
Proof.
  intros Hpresent. rewrite createWorktree_run. unfold createWorktree_outcome.
  set (w0 := match fs w !! base with Some _ => w | None => _ end).
  assert (git_calls w0 = git_calls w) as Hgit by (subst w0; by destruct (fs w !! base)).
  assert (is_Some (fs w0 !! getWorktreePath base workerId)) as [n Hn].
  { subst w0. destruct (fs w !! base); [done|].
    cbn [fs set_fs]. rewrite lookup_insert. case_decide; eauto. }
  rewrite Hn. cbn [fst snd]. rewrite Hn. eauto.
Qed.

(** A directory that is there after the call means the call returned its
    path: the fallback to the root leaves no directory behind. *)
Lemma createWorktree_present_after root base workerId branch w :
  is_Some (fs (snd (createWorktree root base workerId branch w))
             !! getWorktreePath base workerId) ->
  fst (createWorktree root base workerId branch w)
  = Val (getWorktreePath base workerId).
Proof.
  rewrite createWorktree_run. unfold createWorktree_outcome.
  set (w0 := match fs w !! base with Some _ => w | None => _ end).
  destruct (fs w0 !! getWorktreePath base workerId) as [n|] eqn:Hpath; [done|].
  destruct (git_worktree_add (fs w0) _) as [f|]; cbn [fst snd fs set_fs add_git_call].
  - by intros [m ->].
  - rewrite Hpath. by intros [m ?].
Qed.

(** C5. If the worktree directory exists at the path of the slot, the
    provisioner returns that path and asks git for nothing.  Hence, whenever
    the directory is in place after a first call (it was there, or that call
    created it), both that call and a second call with the same arguments
    return the path of the slot, and the second call makes no creation
    attempt. *)
Theorem createWorktree_existing_idempotent root base workerId branch w :
  let path := getWorktreePath base workerId in
  let first := createWorktree root base workerId branch w in
  let second := createWorktree root base workerId branch (snd first) in
  (is_Some (fs w !! path) ->
   fst first = Val path /\
   git_calls (snd first) = git_calls w /\
   is_Some (fs (snd first) !! path)) /\
  (is_Some (fs (snd first) !! path) ->
   fst first = Val path /\
   fst second = Val path /\
   git_calls (snd second) = git_calls (snd first)).
Proof.
  intros path first second. split.
  - apply createWorktree_present.
  - intros Hafter. split; [by apply createWorktree_present_after|].
    destruct (createWorktree_present root base workerId branch (snd first) Hafter)
      as (Hpath & Hgit & _).
    done.
Qed.

End Provisioner.

Section ProvisionerScenarios.
#[local] Existing Instance Sample.runtime.
#[local] Existing Instance Sample.host.

(** The worktree of slot 1 is there from the start; in the empty world the
    first call has git create it (one request) and the second asks nothing. *)
Lemma createWorktree_existing_idempotent_witness :
  let path := getWorktreePath "/home/u/.worktrees/proj" 1 in
  let call := createWorktree "/home/u/proj" "/home/u/.worktrees/proj" 1 None in
  (fst (call world_with_worktree_1) = Val path /\
   git_calls (snd (call world_with_worktree_1)) = git_calls world_with_worktree_1 /\
   is_Some (fs (snd (call world_with_worktree_1)) !! path)) /\
  (fst (call Sample.empty_world) = Val path /\
   fst (call (snd (call Sample.empty_world))) = Val path /\
   git_calls (snd (call (snd (call Sample.empty_world))))
   = git_calls (snd (call Sample.empty_world))).
Proof.
  split.
  - apply (createWorktree_existing_idempotent "/home/u/proj" "/home/u/.worktrees/proj"
             1 None world_with_worktree_1).
    by eexists.
  - apply (createWorktree_existing_idempotent "/home/u/proj" "/home/u/.worktrees/proj"
             1 None Sample.empty_world).
    by eexists.
Defined.

(** Without the directory the provisioner does ask git, and when git cannot
    create the worktree every call asks again and falls back to the root. *)
Example createWorktree_fallback_asks_again :
  let first :=
    @createWorktree Sample.runtime Sample.host_without_git
      "/home/u/proj" "/home/u/.worktrees/proj" 1 None Sample.empty_world in
  let second :=
    @createWorktree Sample.runtime Sample.host_without_git
      "/home/u/proj" "/home/u/.worktrees/proj" 1 None (snd first) in
  fst first = Val "/home/u/proj" /\
  length (git_calls (snd first)) = 1%nat /\
  fst second = Val "/home/u/proj" /\
  length (git_calls (snd second)) = 2%nat.
Proof. vm_compute. repeat split; reflexivity. Qed.

End ProvisionerScenarios.

(** ** Console blindness

    No operation of the lifecycle manager reads the console, so a run that
    starts after a few more lines were printed does the same to the rest of
    the world. *)

Section ConsoleBlind.
Context `{RT : Runtime} `{HT : Host}.

Lemma same_but_console_refl w : same_but_console w w.
Proof. by repeat split. Qed.

Lemma same_but_console_add_console_r l w w' :
  same_but_console w w' -> same_but_console w (add_console l w').
Proof. by intros (? & ? & ? & ?). Qed.

Lemma blind_ret {A} (a : A) : console_blind (ret a).
Proof. by intros w w' Hsim. Qed.

Lemma blind_throw {A} e : console_blind (@throw A e).
Proof. by intros w w' Hsim. Qed.

Lemma blind_bind {A B} (m : M A) (f : A -> M B) :
  console_blind m -> (forall a, console_blind (f a)) -> console_blind (bind m f).
Proof.
  intros Hm Hf w w' Hsim. unfold bind.
  destruct (Hm w w' Hsim) as [Hres Hsim'].
  destruct (m w) as [[a|e] w1], (m w') as [[a'|e'] w1']; simpl in *;
    try discriminate; simplify_eq; [by apply Hf | done].
Qed.

Lemma blind_try_catch {A} (body : M A) (handler : error -> M A) :
  console_blind body -> (forall e, console_blind (handler e)) ->
  console_blind (try_catch body handler).
Proof.
  intros Hm Hf w w' Hsim. unfold try_catch.
  destruct (Hm w w' Hsim) as [Hres Hsim'].
  destruct (body w) as [[a|e] w1], (body w') as [[a'|e'] w1']; simpl in *;
    try discriminate; simplify_eq; [done | by apply Hf].
Qed.

Lemma blind_console_log l : console_blind (console_log l).
Proof. by intros w w' (? & ? & ? & ?). Qed.

Lemma blind_console_error l : console_blind (console_error l).
Proof. by intros w w' (? & ? & ? & ?). Qed.

Lemma blind_getProjectConfig : console_blind getProjectConfig.
Proof.
  intros w w' (Hcwd & ? & ? & ?). unfold getProjectConfig, gets. simpl.
  by rewrite Hcwd.
Qed.

Lemma blind_existsSync p : console_blind (existsSync p).
Proof.
  intros w w' (? & Hfs & ? & ?). unfold existsSync, gets. simpl.
  by rewrite Hfs.
Qed.

Lemma blind_writeFileSync p content : console_blind (writeFileSync p content).
Proof.
  intros w w' (Hcwd & Hfs & Hss & Hgit). unfold writeFileSync. rewrite Hfs.
  destruct (fs w' !! p) as [[c|n]|]; repeat split; simpl; congruence.
Qed.

Lemma blind_mkdirSync p : console_blind (mkdirSync p).
Proof.
  intros w w' (Hcwd & Hfs & Hss & Hgit). unfold mkdirSync. rewrite Hfs.
  destruct (fs w' !! p) as [[c|n]|]; repeat split; simpl; congruence.
Qed.

Lemma blind_execSync_tmux c : console_blind (execSync_tmux c).
Proof.
  intros w w' (Hcwd & Hfs & Hss & Hgit). unfold execSync_tmux. rewrite Hss.
  destruct (tmux_rejects (sessions w') c); [by repeat split|].
  destruct (tmux_effect (sessions w') c); repeat split; simpl; congruence.
Qed.

Lemma blind_execSync_git g : console_blind (execSync_git g).
Proof.
  intros w w' (Hcwd & Hfs & Hss & Hgit). unfold execSync_git. rewrite Hfs.
  destruct (git_worktree_add (fs w') g); repeat split; simpl; congruence.
Qed.

Lemma blind_sessionExists name : console_blind (sessionExists name).
Proof.
  unfold sessionExists, mbind, M_bind.
  apply blind_try_catch; [|intros; apply blind_ret].
  apply blind_bind; [apply blind_execSync_tmux | intros; apply blind_ret].
Qed.

Lemma blind_createWorktree root base workerId branch :
  console_blind (createWorktree root base workerId branch).
Proof.
  unfold createWorktree, mbind, M_bind.
  apply blind_bind; [apply blind_existsSync | intros baseExists].
  apply blind_bind.
  { destruct baseExists; [apply blind_ret | apply blind_mkdirSync]. }
  intros _. apply blind_bind; [apply blind_existsSync | intros present].
  destruct present; [apply blind_ret|].
  apply blind_bind.
  { apply blind_try_catch; [|intros; apply blind_ret].
    apply blind_bind; [apply blind_execSync_git | intros; apply blind_ret]. }
  intros ran. destruct ran; [|apply blind_ret].
  apply blind_bind; [apply blind_existsSync | intros; apply blind_ret].
Qed.

Lemma blind_startWorker workerId : console_blind (startWorker workerId).
Proof.
  unfold startWorker, mbind, M_bind.
  apply blind_bind; [apply blind_getProjectConfig | intros config].
  apply blind_bind; [apply blind_sessionExists | intros alive].
  destruct alive.
  { apply blind_bind; [apply blind_console_log | intros; apply blind_ret]. }
  apply blind_bind; [apply blind_createWorktree | intros path].
  apply blind_bind; [apply blind_writeFileSync | intros _].
  apply blind_try_catch.
  - repeat (apply blind_bind; [first [apply blind_execSync_tmux | apply blind_console_log]
                              | intros _]).
    apply blind_ret.
  - intros e. apply blind_bind; [apply blind_console_error | intros; apply blind_ret].
Qed.

End ConsoleBlind.

(** ** The lifecycle manager *)

Section Lifecycle.
Context `{RT : Runtime} `{HT : Host}.

Lemma sessionExists_false_blind name w w' :
  same_but_console w w' ->
  sessionExists name w = (Val false, w) ->
  sessionExists name w' = (Val false, w').
Proof.
  intros (_ & _ & Hss & _). rewrite !sessionExists_run.
  unfold session_alive. rewrite Hss. by intros [= ->].
Qed.

(** `kill` of a slot without a session: a success that changes nothing. *)
Lemma killWorker_absent workerId w :
  sessionExists (getWorkerSessionName (path_basename (cwd w)) workerId) w
  = (Val false, w) ->
  killWorker workerId w = (Val true, w).
Proof.
  intros Hdead. unfold killWorker.
  erewrite bind_run by apply getProjectConfig_run.
  by erewrite bind_run by apply Hdead.
Qed.

(** C6. For a slot (1..4) whose session does not exist, `restart` leaves the
    filesystem, the sessions and the record of git requests exactly as plain
    `start` does, and ends the same way (both return, or both throw the same
    error); its kill step is a success that changes nothing. *)
Theorem restartWorker_absent_session_like_start workerId w :
  1 <= workerId <= WORKER_COUNT ->
  sessionExists (getWorkerSessionName (path_basename (cwd w)) workerId) w
  = (Val false, w) ->
  killWorker workerId w = (Val true, w) /\
  same_outcome (fst (restartWorker workerId w)) (fst (startWorker workerId w)) /\
  host_state (snd (restartWorker workerId w))
  = host_state (snd (startWorker workerId w)) /\
  git_calls (snd (restartWorker workerId w))
  = git_calls (snd (startWorker workerId w)).
Proof.
  intros Hslot Hdead. split; [by apply killWorker_absent|].
  unfold restartWorker.
  replace ((workerId <? 1) || (workerId >? WORKER_COUNT)) with false by lia.
  unfold mbind, M_bind.
  erewrite bind_run by reflexivity.
  erewrite bind_run by reflexivity.
  match goal with |- context [bind (killWorker _) _ ?w0] => set (w1 := w0) end.
  assert (same_but_console w w1) as Hsim.
  { do 2 apply same_but_console_add_console_r. apply same_but_console_refl. }
  erewrite (bind_run (killWorker workerId)).
  2:{ apply killWorker_absent.
      replace (cwd w1) with (cwd w) by reflexivity.
      by apply (sessionExists_false_blind _ w). }
  erewrite bind_run by reflexivity.
  destruct (blind_startWorker workerId w w1 Hsim) as [Hres (Hcwd & Hfs & Hss & Hgit)].
  unfold host_state.
  destruct (startWorker workerId w1) as [[b|e] w2] eqn:Hrun1,
           (startWorker workerId w) as [[b'|e'] w2'] eqn:Hrun;
    simpl in Hres, Hcwd, Hfs, Hss, Hgit; try discriminate.
  - rewrite (bind_run _ _ _ _ _ Hrun1). simpl. by rewrite Hfs, Hss, Hgit.
  - rewrite (bind_exn _ _ _ _ _ Hrun1). simpl. simplify_eq.
    by rewrite Hfs, Hss, Hgit.
Qed.

(** C7, as the code has it. For a slot whose session does not exist, `stop`
    throws nothing, changes neither filesystem nor sessions, prints
    "Worker-N not running" and returns false; calling it again does the
    same. *)
Theorem stopWorker_absent_session_not_running workerId w :
  sessionExists (getWorkerSessionName (path_basename (cwd w)) workerId) w
  = (Val false, w) ->
  let line := "  Worker-" +:+ pretty workerId +:+ " not running" in
  stopWorker workerId w = (Val false, add_console line w) /\
  host_state (add_console line w) = host_state w /\
  stopWorker workerId (add_console line w)
  = (Val false, add_console line (add_console line w)).
Proof.
  intros Hdead line.
  assert (forall w', same_but_console w w' ->
            stopWorker workerId w' = (Val false, add_console line w')) as Hstop.
  { intros w' Hsim. unfold stopWorker.
    erewrite bind_run by apply getProjectConfig_run.
    erewrite bind_run.
    2:{ replace (cwd w') with (cwd w) by apply Hsim.
        by apply (sessionExists_false_blind _ w). }
    reflexivity. }
  split; [apply Hstop, same_but_console_refl|].
  split; [done|].
  apply Hstop, same_but_console_add_console_r, same_but_console_refl.
Qed.

End Lifecycle.

Section LifecycleScenarios.
#[local] Existing Instance Sample.runtime.
#[local] Existing Instance Sample.host.

Lemma restartWorker_absent_session_like_start_witness :
  killWorker 2 Sample.empty_world = (Val true, Sample.empty_world) /\
  same_outcome (fst (restartWorker 2 Sample.empty_world))
               (fst (startWorker 2 Sample.empty_world)) /\
  host_state (snd (restartWorker 2 Sample.empty_world))
  = host_state (snd (startWorker 2 Sample.empty_world)) /\
  git_calls (snd (restartWorker 2 Sample.empty_world))
  = git_calls (snd (startWorker 2 Sample.empty_world)).
Proof.
  apply (restartWorker_absent_session_like_start 2 Sample.empty_world).
  - unfold WORKER_COUNT. lia.
  - reflexivity.
Defined.

(** What `start` and `restart` of slot 2 leave behind in the empty world:
    the worktree, the empty log and a configured session. *)
Example restartWorker_sample_run :
  fst (restartWorker 2 Sample.empty_world) = Val tt /\
  sessions (snd (restartWorker 2 Sample.empty_world))
  = {[ "hive-proj-worker-2" :=
         mkSession "/home/u/.worktrees/proj/worker-2"
           (Some "cat >> /tmp/hive-proj-worker-2.log") true
           ["claude --dangerously-skip-permissions"] ]} /\
  fs (snd (restartWorker 2 Sample.empty_world)) !! "/tmp/hive-proj-worker-2.log"
  = Some (File "").
Proof. vm_compute. repeat split; reflexivity. Qed.

(** C7 fails on the code: `stop` of a slot without a session returns false,
    the value it returns when sending the exit command fails, while a stop
    that was sent returns true, as does `kill` of a slot without a session. *)
Lemma stopWorker_absent_session_returns_false :
  fst (stopWorker 2 Sample.empty_world) = Val false /\
  fst (@stopWorker Sample.runtime host_refusing_send_keys 2 world_with_session_2)
  = Val false /\
  fst (stopWorker 2 world_with_session_2) = Val true /\
  fst (killWorker 2 Sample.empty_world) = Val true.
Proof. vm_compute. repeat split; reflexivity. Qed.

Lemma stopWorker_absent_session_not_running_witness :
  let line := "  Worker-" +:+ pretty 2 +:+ " not running" in
  stopWorker 2 Sample.empty_world = (Val false, add_console line Sample.empty_world) /\
  host_state (add_console line Sample.empty_world) = host_state Sample.empty_world /\
  stopWorker 2 (add_console line Sample.empty_world)
  = (Val false, add_console line (add_console line Sample.empty_world)).
Proof.
  apply (stopWorker_absent_session_not_running 2 Sample.empty_world).
  reflexivity.
Defined.

End LifecycleScenarios.

(** ** The log tail *)

Section LogTailFacts.
Context `{RT : Runtime} `{HT : Host}.

Lemma pollLog_run path st w :
  pollLog path st w = (Val (tail_after st (fs w !! path)), w).
Proof.
  unfold pollLog, tail_after.
  erewrite bind_run by apply existsSync_run.
  destruct (fs w !! path) as [[content|n]|] eqn:Hnode; cbn [negb]; [| |done].
  - unfold try_catch, bind, statSync_size, readFileSync. rewrite Hnode.
    destruct (_ >? _); [|done]. by rewrite Hnode.
  - unfold try_catch, bind, statSync_size, readFileSync. rewrite Hnode.
    destruct (_ >? _); [|done]. by rewrite Hnode.
Qed.

(** C8, as the code has it. A polling step that finds the file gone, or not
    larger than the last-observed size, leaves the tracked size and the
    retained lines as they were; a step that finds the file larger than the
    last-observed size reads the whole file from its start, keeps its last
    100 non-blank lines and tracks the new size. *)
Theorem pollLog_shrunk_or_missing_keeps_state path st w :
  (fs w !! path = None -> pollLog path st w = (Val st, w)) /\
  (forall content,
     fs w !! path = Some (File content) ->
     Z.of_nat (String.length content) <= lastSize st ->
     pollLog path st w = (Val st, w)) /\
  (forall content,
     fs w !! path = Some (File content) ->
     lastSize st < Z.of_nat (String.length content) ->
     pollLog path st w
     = (Val (mkLogTail (recent_lines content) (Z.of_nat (String.length content))), w)).
Proof.
  rewrite pollLog_run. repeat split.
  - by intros ->.
  - intros content -> Hsize. simpl.
    by destruct (Z.gtb_spec (Z.of_nat (String.length content)) (lastSize st)); [lia|].
  - intros content -> Hsize. simpl.
    by destruct (Z.gtb_spec (Z.of_nat (String.length content)) (lastSize st)); [|lia].
Qed.

End LogTailFacts.

Section LogTailScenarios.
#[local] Existing Instance Sample.runtime.
#[local] Existing Instance Sample.host.

(** C8 fails on the code: after reading a log of 4 bytes the tailer meets the
    truncated file, then no file at all, and still tracks size 4 instead of
    0; the line appended to the new file (2 bytes) is then not picked up. *)
Lemma pollLog_no_reset_on_shrink :
  let st1 := mkLogTail ["a"; "b"] 4 in
  useWorkerLogs_start "proj" 1 world_log_two_lines = (Val st1, world_log_two_lines) /\
  useWorkerLogs_tick "proj" 1 st1 world_log_truncated = (Val st1, world_log_truncated) /\
  useWorkerLogs_tick "proj" 1 st1 Sample.empty_world = (Val st1, Sample.empty_world) /\
  lastSize st1 <> 0 /\
  useWorkerLogs_tick "proj" 1 st1 world_log_new_line = (Val st1, world_log_new_line) /\
  ~ In "c" (lines st1).
Proof.
  repeat split; try reflexivity.
  - discriminate.
  - simpl. intros [H|[H|[]]]; discriminate.
Qed.

Lemma pollLog_shrunk_or_missing_keeps_state_witness :
  let st1 := mkLogTail ["a"; "b"] 4 in
  pollLog sample_log st1 Sample.empty_world = (Val st1, Sample.empty_world) /\
  pollLog sample_log st1 world_log_new_line = (Val st1, world_log_new_line) /\
  pollLog sample_log logs_reset world_log_new_line
  = (Val (mkLogTail (recent_lines ("c" +:+ NL)) 2), world_log_new_line).
Proof.
  split; [|split].
  - apply (pollLog_shrunk_or_missing_keeps_state sample_log (mkLogTail ["a"; "b"] 4)
             Sample.empty_world). reflexivity.
  - apply (pollLog_shrunk_or_missing_keeps_state sample_log (mkLogTail ["a"; "b"] 4)
             world_log_new_line) with (content := "c" +:+ NL).
    + reflexivity.
    + simpl. lia.
  - apply (pollLog_shrunk_or_missing_keeps_state sample_log logs_reset
             world_log_new_line) with (content := "c" +:+ NL).
    + reflexivity.
    + simpl. lia.
Defined.

End LogTailScenarios.

(** ** The configuration reader *)

Section ConfigFacts.
Context `{RT : Runtime} `{HT : Host}.

Lemma readConfigFile_run path w :
  readConfigFile path w = (Val (config_on_disk path w), w).
Proof.
  unfold readConfigFile, config_on_disk, try_catch, bind, existsSync, gets,
    readFileSync, throw, ret.
  destruct (fs w !! path) as [[content|n]|] eqn:Hnode; cbn; rewrite ?Hnode; try done.
  by destruct (parse_config content).
Qed.

Lemma config_on_disk_unreadable path w :
  missing_or_malformed path w -> config_on_disk path w = ∅.
Proof.
  unfold config_on_disk. by intros [-> | (content & -> & ->)].
Qed.

Lemma getConfigValue_run key projectRoot w :
  getConfigValue key projectRoot w
  = (Val ((local_level projectRoot w ∪ config_on_disk GLOBAL_CONFIG_PATH w) !! key), w).
Proof.
  unfold getConfigValue, getMergedConfig, getGlobalConfig, getLocalConfig, local_level.
  erewrite bind_run; [reflexivity|].
  erewrite bind_run by apply readConfigFile_run.
  erewrite bind_run; [reflexivity|].
  destruct (truthy projectRoot); [apply readConfigFile_run | reflexivity].
Qed.

Lemma local_level_root root w :
  root <> "" -> local_level (Some root) w = config_on_disk (getLocalConfigPath root) w.
Proof. by destruct root. Qed.

(** C10. A level whose file is missing or does not parse reads as the empty
    configuration.  `config get` never throws; with such a local file it
    returns what the global level holds for the key, with such a global file
    what the local level holds, and undefined when both are like that. *)
Theorem getConfigValue_unreadable_level_is_empty key w :
  (forall path, missing_or_malformed path w -> readConfigFile path w = (Val ∅, w)) /\
  (forall projectRoot, exists v, getConfigValue key projectRoot w = (Val v, w)) /\
  (forall root,
     root <> "" ->
     missing_or_malformed (getLocalConfigPath root) w ->
     exists global,
       getGlobalConfig w = (Val global, w) /\
       getConfigValue key (Some root) w = (Val (global !! key), w)) /\
  (forall root,
     root <> "" ->
     missing_or_malformed GLOBAL_CONFIG_PATH w ->
     exists local,
       getLocalConfig root w = (Val local, w) /\
       getConfigValue key (Some root) w = (Val (local !! key), w)) /\
  (forall root,
     root <> "" ->
     missing_or_malformed (getLocalConfigPath root) w ->
     missing_or_malformed GLOBAL_CONFIG_PATH w ->
     getConfigValue key (Some root) w = (Val None, w)).
Proof.
  split; [|split; [|split; [|split]]].
  - intros path Hbad. by rewrite readConfigFile_run, config_on_disk_unreadable.
  - intros projectRoot. rewrite getConfigValue_run. eauto.
  - intros root Hroot Hbad. rewrite getConfigValue_run, local_level_root by done.
    eexists. split; [apply readConfigFile_run|].
    rewrite (config_on_disk_unreadable _ _ Hbad). by rewrite (left_id_L ∅ (∪)).
  - intros root Hroot Hbad. rewrite getConfigValue_run, local_level_root by done.
    eexists. split; [apply readConfigFile_run|].
    rewrite (config_on_disk_unreadable _ _ Hbad). by rewrite (right_id_L ∅ (∪)).
  - intros root Hroot Hlocal Hglobal.
    rewrite getConfigValue_run, local_level_root by done.
    rewrite (config_on_disk_unreadable _ _ Hlocal),
      (config_on_disk_unreadable _ _ Hglobal).
    by rewrite (left_id_L ∅ (∪)).
Qed.

End ConfigFacts.

Section ConfigScenarios.
#[local] Existing Instance Sample.runtime.
#[local] Existing Instance Sample.host.

(** A corrupt local file does not mask the global theme. *)
Lemma getConfigValue_unreadable_level_is_empty_witness :
  readConfigFile "/home/u/proj/.hive/config.json" world_corrupt_local_config
  = (Val ∅, world_corrupt_local_config) /\
  exists global,
    getGlobalConfig world_corrupt_local_config = (Val global, world_corrupt_local_config) /\
    global !! "theme" = Some "dark" /\
    getConfigValue "theme" (Some "/home/u/proj") world_corrupt_local_config
    = (Val (global !! "theme"), world_corrupt_local_config).
Proof.
  assert (missing_or_malformed (getLocalConfigPath "/home/u/proj")
            world_corrupt_local_config) as Hbad.
  { right. exists "{theme". split; reflexivity. }
  destruct (getConfigValue_unreadable_level_is_empty "theme"
              world_corrupt_local_config)
    as (Hempty & _ & Hlocal & _ & _).
  split; [exact (Hempty _ Hbad)|].
  destruct (Hlocal "/home/u/proj" ltac:(discriminate) Hbad)
    as (global & Hglobal & Hvalue).
  exists global. split; [exact Hglobal|]. split; [|exact Hvalue].
  assert (getGlobalConfig world_corrupt_local_config
          = (Val {[ "theme" := "dark" ]}, world_corrupt_local_config)) as Hrun
    by reflexivity.
  rewrite Hrun in Hglobal. by injection Hglobal as <-.
Defined.

End ConfigScenarios.

(** ** The modal key dispatcher *)

Module KeysFacts.
Import Keys.

(** The loops of the setup run their body for 1, 2, 3 and 4. *)
Lemma for_state_1_4 {S} (body : Z -> S -> S) (s : S) :
  for_state 4 1 4 body s = body 4 (body 3 (body 2 (body 1 s))).
Proof. reflexivity. Qed.

Section Bindings.
Variable accepts : request -> bool.




End Bindings.





End KeysFacts.

(** * Further properties *)

(** ** Session names *)

(** X1. Within a project distinct worker ids name distinct sessions, and no
    worker session (of any project) bears the name of an embedded session. *)
Theorem worker_session_names_distinct projectName i j other :
  (getWorkerSessionName projectName i = getWorkerSessionName projectName j -> i = j) /\
  getEmbeddedSessionName other <> getWorkerSessionName projectName i.
Proof.
  split.
  - unfold getWorkerSessionName. intros Heq.
    apply (inj (String.app "hive-")) in Heq.
    apply (inj (String.app projectName)) in Heq.
    apply (inj (String.app "-worker-")) in Heq.
    by apply (inj pretty) in Heq.
  - unfold getEmbeddedSessionName, getWorkerSessionName. simpl. by intros [=].
Qed.

Lemma worker_session_names_distinct_aux projectName i j :
  getWorkerSessionName projectName i = getWorkerSessionName projectName j -> i = j.
Proof.
  unfold getWorkerSessionName. intros Heq.
  apply (inj (String.app "hive-")) in Heq.
  apply (inj (String.app projectName)) in Heq.
  apply (inj (String.app "-worker-")) in Heq.
  by apply (inj pretty) in Heq.
Qed.

Lemma worker_session_names_distinct_witness :
  getWorkerSessionName "proj" 3 = getWorkerSessionName "proj" (1 + 2) /\ 3 = 1 + 2.
Proof.
  split; [reflexivity|].
  apply (worker_session_names_distinct "proj" 3 (1 + 2) ""). reflexivity.
Defined.

(** ** Composing relational facts along the monad *)

Section Steps.
Context {R : world -> world -> Prop} `{!PreOrder R}.

Lemma steps_ret {A} (a : A) : steps R (ret a).
Proof. intros w. simpl. reflexivity. Qed.

Lemma steps_bind {A B} (m : M A) (f : A -> M B) :
  steps R m -> (forall a, steps R (f a)) -> steps R (bind m f).
Proof.
  intros Hm Hf w. unfold bind. specialize (Hm w).
  destruct (m w) as [[a|e] w1]; simpl in *; [|done].
  etrans; [exact Hm | apply Hf].
Qed.

Lemma steps_try_catch {A} (body : M A) (handler : error -> M A) :
  steps R body -> (forall e, steps R (handler e)) -> steps R (try_catch body handler).
Proof.
  intros Hm Hf w. unfold try_catch. specialize (Hm w).
  destruct (body w) as [[a|e] w1]; simpl in *; [done|].
  etrans; [exact Hm | apply Hf].
Qed.



End Steps.

#[local] Instance same_files_preorder : PreOrder same_files.
Proof.
  split.
  - by intros w.
  - intros w1 w2 w3 [? ?] [? ?]. split; congruence.
Qed.

#[local] Instance only_session_preorder name : PreOrder (only_session name).
Proof.
  split.
  - by intros w n.
  - intros w1 w2 w3 H12 H23 n Hn. by rewrite H23, H12.
Qed.

#[local] Instance sessions_kept_preorder : PreOrder sessions_kept.
Proof.
  split.
  - by intros w n.
  - intros w1 w2 w3 H12 H23 n Hn. by apply H23, H12.
Qed.

#[local] Instance same_session_names_preorder : PreOrder same_session_names.
Proof.
  split.
  - by intros w n.
  - intros w1 w2 w3 H12 H23 n. etrans; [apply H23 | apply H12].
Qed.

#[local] Instance no_session_added_preorder : PreOrder no_session_added.
Proof.
  split.
  - by intros w n.
  - intros w1 w2 w3 H12 H23 n Hn. by apply H23, H12.
Qed.

#[local] Instance only_worker_sessions_preorder `{RT : Runtime} :
  PreOrder only_worker_sessions.
Proof.
  split.
  - by intros w.
  - intros w1 w2 w3 [Hc12 H12] [Hc23 H23]. split; [congruence|].
    intros n Hn. rewrite H23, H12; [done..|]. by rewrite Hc12.
Qed.






Lemma steps_console_log `{!PreOrder R} l :
  (forall w, R w (add_console l w)) -> steps R (console_log l).
Proof. intros HR w. apply HR. Qed.

(** ** kill, stop and prompt of one worker *)

Section WorkerOps.
Context `{RT : Runtime} `{HT : Host}.

Lemma session_alive_lookup name w :
  session_alive name w = true -> is_Some (sessions w !! name).
Proof.
  unfold session_alive. destruct (tmux_rejects _ _); [done|].
  by destruct (sessions w !! name).
Qed.

Lemma session_alive_absent name w :
  sessions w !! name = None -> session_alive name w = false.
Proof.
  unfold session_alive. intros ->. by destruct (tmux_rejects _ _).
Qed.

Lemma killWorker_run workerId w :
  let name := getWorkerSessionName (path_basename (cwd w)) workerId in
  killWorker workerId w
  = if session_alive name w then
      if tmux_rejects (sessions w) (KillSession name) then
        (Val false,
         add_console ("  Failed to kill Worker-" +:+ pretty workerId +:+ ": "
                      +:+ error_text (CommandFailed (tmux_text (KillSession name)))) w)
      else
        (Val true,
         add_console ("  Worker-" +:+ pretty workerId +:+ " killed")
           (set_sessions (delete name (sessions w)) w))
    else (Val true, w).
Proof.
  intros name. unfold killWorker.
  erewrite bind_run by apply getProjectConfig_run.
  erewrite bind_run by apply sessionExists_run.
  change (projectName (project_config (cwd w))) with (path_basename (cwd w)).
  fold name. destruct (session_alive name w) eqn:Halive; [|done].
  destruct (session_alive_lookup _ _ Halive) as [s Hs].
  cbn [negb]. unfold try_catch, mbind, M_bind, bind, execSync_tmux.
  destruct (tmux_rejects (sessions w) (KillSession name)); [done|].
  simpl. by rewrite Hs.
Qed.

(** X2. `kill` never throws and leaves files and every other session alone.
    When it reports success the session is gone (if the host answers
    `has-session` at all), and a second `kill` is a success that changes
    nothing. *)
Theorem killWorker_effect workerId w :
  let name := getWorkerSessionName (path_basename (cwd w)) workerId in
  let w' := snd (killWorker workerId w) in
  exists ok,
    fst (killWorker workerId w) = Val ok /\
    same_files w w' /\
    only_session name w w' /\
    (ok = true ->
     tmux_rejects (sessions w) (HasSession name) = false ->
     sessions w' !! name = None) /\
    (ok = true -> killWorker workerId w' = (Val true, w')).
Proof.
  intros name w'. subst w'. rewrite killWorker_run. fold name.
  destruct (session_alive name w) eqn:Halive.
  - destruct (tmux_rejects (sessions w) (KillSession name)).
    + exists false. by repeat split.
    + exists true. cbn [fst snd]. repeat split.
      * intros n Hn. simpl. by apply lookup_delete_ne.
      * intros _ _. simpl. apply lookup_delete_eq.
      * intros _. rewrite killWorker_run. cbn [cwd add_console set_sessions]. fold name.
        rewrite session_alive_absent; [done|]. simpl. apply lookup_delete_eq.
  - exists true. cbn [fst snd]. repeat split.
    + intros _ Hanswers. unfold session_alive in Halive. rewrite Hanswers in Halive.
      by destruct (sessions w !! name).
    + intros _. rewrite killWorker_run. fold name. by rewrite Halive.
Qed.

Lemma stopWorker_run workerId w :
  let name := getWorkerSessionName (path_basename (cwd w)) workerId in
  stopWorker workerId w
  = if session_alive name w then
      if tmux_rejects (sessions w) (SendKeys name "/exit") then
        (Val false,
         add_console ("  Failed to stop Worker-" +:+ pretty workerId +:+ ": "
                      +:+ error_text (CommandFailed (tmux_text (SendKeys name "/exit")))) w)
      else
        (Val true,
         add_console ("  Worker-" +:+ pretty workerId +:+ " stopping...")
           (set_sessions
              (alter (fun s => mkSession (s_cwd s) (s_pipe s) (s_mouse s)
                                 (s_keys s ++ ["/exit"])) name (sessions w)) w))
    else (Val false, add_console ("  Worker-" +:+ pretty workerId +:+ " not running") w).
Proof.
  intros name. unfold stopWorker.
  erewrite bind_run by apply getProjectConfig_run.
  erewrite bind_run by apply sessionExists_run.
  change (projectName (project_config (cwd w))) with (path_basename (cwd w)).
  fold name. destruct (session_alive name w) eqn:Halive; [|done].
  destruct (session_alive_lookup _ _ Halive) as [s Hs].
  cbn [negb]. unfold try_catch, mbind, M_bind, bind, execSync_tmux.
  destruct (tmux_rejects (sessions w) (SendKeys name "/exit")); [done|].
  simpl. rewrite Hs. simpl. do 3 f_equal.
  apply map_eq. intros n. rewrite lookup_alter, lookup_insert.
  case_decide; [subst; by rewrite Hs | done].
Qed.

(** X3. `stop` never throws and never ends a session: files, the set of
    sessions and every other session stay as they are; when it reports
    success the session has received "/exit" and nothing else. *)
Theorem stopWorker_effect workerId w :
  let name := getWorkerSessionName (path_basename (cwd w)) workerId in
  let w' := snd (stopWorker workerId w) in
  exists ok,
    fst (stopWorker workerId w) = Val ok /\
    same_files w w' /\
    same_session_names w w' /\
    only_session name w w' /\
    (ok = true ->
     exists s,
       sessions w !! name = Some s /\
       sessions w' !! name
       = Some (mkSession (s_cwd s) (s_pipe s) (s_mouse s) (s_keys s ++ ["/exit"]))).
Proof.
  intros name w'. subst w'. rewrite stopWorker_run. fold name.
  destruct (session_alive name w) eqn:Halive.
  - destruct (tmux_rejects (sessions w) (SendKeys name "/exit")).
    + exists false. by repeat split.
    + exists true. cbn [fst snd]. split; [done|]. split; [done|]. split; [|split].
      * intros n. simpl. rewrite lookup_alter. case_decide; [subst|done].
        by rewrite <- !not_eq_None_Some, fmap_None.
      * intros n Hn. simpl. by rewrite lookup_alter_ne.
      * intros _. destruct (session_alive_lookup _ _ Halive) as [s Hs].
        exists s. split; [done|]. simpl. by rewrite lookup_alter_eq, Hs.
  - exists false. by repeat split.
Qed.

End WorkerOps.

(** ** Triples *)

Lemma hoare_ret {A} (P : world -> Prop) (a : A) (Q : A -> world -> Prop) :
  (forall w, P w -> Q a w) -> hoare P (ret a) Q.
Proof. intros HQ w HP. by apply HQ. Qed.

Lemma hoare_bind {A B} (P : world -> Prop) (m : M A) (f : A -> M B)
    (Q1 : A -> world -> Prop) (Q : B -> world -> Prop) :
  hoare P m Q1 -> (forall a, hoare (Q1 a) (f a) Q) -> hoare P (bind m f) Q.
Proof.
  intros Hm Hf w HP. unfold bind. specialize (Hm w HP).
  destruct (m w) as [[a|e] w1]; [|done]. by apply Hf.
Qed.

Lemma hoare_try_catch {A} (P : world -> Prop) (body : M A) (handler : error -> M A)
    (Q : A -> world -> Prop) :
  hoare P body Q -> (forall e, hoare (fun _ => True) (handler e) Q) ->
  hoare P (try_catch body handler) Q.
Proof.
  intros Hm Hf w HP. unfold try_catch. specialize (Hm w HP).
  destruct (body w) as [[a|e] w1]; [done|]. by apply Hf.
Qed.





Lemma total_weaken {A} (P P' : world -> Prop) (m : M A) (Q Q' : A -> world -> Prop) :
  total P' m Q' -> (forall w, P w -> P' w) -> (forall a w, Q' a w -> Q a w) ->
  total P m Q.
Proof.
  intros Hm HP HQ w Hw. destruct (Hm w (HP w Hw)) as (a & w1 & Hrun & HQ').
  exists a, w1. split; [done | by apply HQ].
Qed.



Lemma steps_weaken {A} (R R' : world -> world -> Prop) (m : M A) :
  (forall w w', R w w' -> R' w w') -> steps R m -> steps R' m.
Proof. intros HR Hm w. apply HR, Hm. Qed.

#[local] Instance worker_step_preorder name : PreOrder (worker_step name).
Proof.
  split.
  - by intros w.
  - intros w1 w2 w3 (Hc12 & Ho12 & Hk12) (Hc23 & Ho23 & Hk23). repeat split.
    + congruence.
    + intros n Hn. by rewrite Ho23, Ho12.
    + intros n Hn. by apply Hk23, Hk12.
Qed.

(** ** start of one worker *)

Section StartWorker.
Context `{RT : Runtime} `{HT : Host}.

Lemma steps_unchanged {A} name (m : M A) :
  (forall w, cwd (snd (m w)) = cwd w /\ sessions (snd (m w)) = sessions w) ->
  steps (worker_step name) m.
Proof.
  intros Hm w. destruct (Hm w) as [Hcwd Hss].
  repeat split; [done | intros; by rewrite Hss | intros n; by rewrite Hss].
Qed.

Lemma tmux_effect_keeps ss c ss' :
  is_kill c = false ->
  tmux_effect ss c = Some ss' ->
  is_Some (ss' !! tmux_target c) /\
  (forall n, n <> tmux_target c -> ss' !! n = ss !! n) /\
  (forall n, is_Some (ss !! n) -> is_Some (ss' !! n)).
Proof.
  intros Hkill Heffect.
  destruct c as [t|t d|t cmd|t|t k|t]; try done; simpl in *;
    destruct (ss !! t) as [s|] eqn:Hs; simplify_eq;
    (split; [rewrite ?lookup_insert_eq, ?Hs; by eauto|]);
    (split; [intros n Hn; by rewrite ?lookup_insert_ne|]);
    intros n Hn; try done;
    (destruct (decide (n = t)) as [->|Hne];
     [rewrite lookup_insert_eq; by eauto | by rewrite lookup_insert_ne]).
Qed.

Lemma steps_execSync_tmux c :
  is_kill c = false -> steps (worker_step (tmux_target c)) (execSync_tmux c).
Proof.
  intros Hkill w. unfold execSync_tmux.
  destruct (tmux_rejects (sessions w) c); [reflexivity|].
  destruct (tmux_effect (sessions w) c) as [ss|] eqn:Heffect; [|reflexivity].
  destruct (tmux_effect_keeps _ _ _ Hkill Heffect) as (_ & Hother & Hkept).
  by repeat split.
Qed.

Lemma createWorktree_returns root base workerId branch w :
  exists path,
    fst (createWorktree root base workerId branch w) = Val path /\
    cwd (snd (createWorktree root base workerId branch w)) = cwd w /\
    sessions (snd (createWorktree root base workerId branch w)) = sessions w.
Proof.
  rewrite createWorktree_run. unfold createWorktree_outcome.
  set (w0 := match fs w !! base with Some _ => w | None => _ end).
  assert (cwd w0 = cwd w /\ sessions w0 = sessions w) as [Hcwd Hss]
    by (subst w0; by destruct (fs w !! base)).
  destruct (fs w0 !! getWorktreePath base workerId); [by eauto|].
  destruct (git_worktree_add (fs w0) _); by eauto.
Qed.

Lemma steps_sessionExists name name' : steps (worker_step name) (sessionExists name').
Proof. intros w. by rewrite sessionExists_run. Qed.

Lemma steps_writeFileSync name p content :
  steps (worker_step name) (writeFileSync p content).
Proof.
  apply steps_unchanged. intros w. unfold writeFileSync.
  by destruct (fs w !! p) as [[c|n]|].
Qed.

Lemma steps_createWorktree name root base workerId branch :
  steps (worker_step name) (createWorktree root base workerId branch).
Proof.
  apply steps_unchanged. intros w.
  by destruct (createWorktree_returns root base workerId branch w) as (p & _ & ? & ?).
Qed.

Lemma steps_log name l : steps (worker_step name) (console_log l).
Proof. by apply steps_unchanged. Qed.

Lemma steps_start_tmux name c :
  is_kill c = false -> tmux_target c = name ->
  steps (worker_step name) (execSync_tmux c).
Proof. intros Hkill <-. by apply steps_execSync_tmux. Qed.

(** `start` keeps the working directory of the process, every session
    under another name, and every session there is. *)
Lemma steps_startWorker workerId w :
  worker_step (getWorkerSessionName (path_basename (cwd w)) workerId)
    w (snd (startWorker workerId w)).
Proof.
  unfold startWorker. erewrite bind_run by apply getProjectConfig_run.
  change (path_basename (cwd w)) with (projectName (project_config (cwd w))).
  generalize (project_config (cwd w)). intros config. revert w.
  set (name := getWorkerSessionName (projectName config) workerId).
  unfold mbind, M_bind.
  refine (steps_bind (R := worker_step name) _ _ _ _);
    [apply steps_sessionExists | intros alive].
  destruct alive.
  { apply steps_bind; [apply steps_log | intros; apply steps_ret]. }
  apply steps_bind; [apply steps_createWorktree | intros path].
  apply steps_bind; [apply steps_writeFileSync | intros _].
  apply steps_try_catch.
  - repeat (apply steps_bind;
            [first [by apply steps_start_tmux | apply steps_log] | intros _]).
    apply steps_ret.
  - intros e. apply steps_bind; [apply steps_log | intros; apply steps_ret].
Qed.

Lemma hoare_any {A} (P : world -> Prop) (m : M A) : hoare P m (fun _ _ => True).
Proof. intros w _. by destruct (m w) as [[a|e] w1]. Qed.

Lemma hoare_then {A B} (P : world -> Prop) (m : M A) (f : A -> M B)
    (Q : B -> world -> Prop) :
  (forall a, hoare (fun _ => True) (f a) Q) -> hoare P (bind m f) Q.
Proof. intros Hf. eapply hoare_bind; [apply hoare_any | exact Hf]. Qed.

Lemma hoare_log (S : gmap string session -> Prop) l :
  hoare (fun w => S (sessions w)) (console_log l) (fun _ w => S (sessions w)).
Proof. by intros w HS. Qed.

Lemma hoare_tmux c :
  is_kill c = false ->
  hoare (fun _ => True) (execSync_tmux c)
    (fun _ w => is_Some (sessions w !! tmux_target c)).
Proof.
  intros Hkill w _. unfold execSync_tmux.
  destruct (tmux_rejects (sessions w) c); [done|].
  destruct (tmux_effect (sessions w) c) as [ss|] eqn:Heffect; [|done].
  by destruct (tmux_effect_keeps _ _ _ Hkill Heffect) as [? _].
Qed.

Lemma startWorker_alive workerId w :
  session_alive (getWorkerSessionName (path_basename (cwd w)) workerId) w = true ->
  startWorker workerId w
  = (Val true, add_console ("  Worker-" +:+ pretty workerId +:+ " already running") w).
Proof.
  intros Halive. unfold startWorker.
  erewrite bind_run by apply getProjectConfig_run.
  erewrite bind_run by apply sessionExists_run.
  change (projectName (project_config (cwd w))) with (path_basename (cwd w)).
  by rewrite Halive.
Qed.

Lemma startWorker_unfold workerId w :
  startWorker workerId w = startWorker_with (project_config (cwd w)) workerId w.
Proof. reflexivity. Qed.

(** When `start` returns true the session is there. *)
Lemma hoare_startWorker_with config workerId :
  hoare (fun _ => True) (startWorker_with config workerId)
    (fun ok w' =>
       ok = true ->
       is_Some (sessions w' !! getWorkerSessionName (projectName config) workerId)).
Proof.
  set (name := getWorkerSessionName (projectName config) workerId).
  unfold startWorker_with, mbind, M_bind. fold name.
  apply (hoare_bind _ _ _
           (fun alive w => alive = true -> is_Some (sessions w !! name))).
  { intros w _. rewrite sessionExists_run. apply session_alive_lookup. }
  intros [|].
  - apply (hoare_bind _ _ _ (fun _ w => is_Some (sessions w !! name))).
    + intros w Hw. by apply Hw.
    + intros _. by apply hoare_ret.
  - apply hoare_then. intros path. apply hoare_then. intros _.
    apply hoare_try_catch.
    + do 3 (apply hoare_then; intros _).
      apply (hoare_bind _ _ _ (fun _ w => is_Some (sessions w !! name)));
        [by apply (hoare_tmux (SendKeys name _))|].
      intros _.
      apply (hoare_bind _ _ _ (fun _ w => is_Some (sessions w !! name)));
        [apply (hoare_log (fun ss => is_Some (ss !! name)))|].
      intros _. by apply hoare_ret.
    + intros e. apply hoare_then. intros _. by apply hoare_ret.
Qed.






Lemma startWorker_true_session_aux workerId w :
  fst (startWorker workerId w) = Val true ->
  is_Some (sessions (snd (startWorker workerId w))
             !! getWorkerSessionName (path_basename (cwd w)) workerId).
Proof.
  intros Hok. rewrite startWorker_unfold in *.
  pose proof (hoare_startWorker_with (project_config (cwd w)) workerId w I) as Hpost.
  destruct (startWorker_with _ _ w) as [[ok|e] w1]; simpl in *; [|done].
  apply Hpost. congruence.
Qed.

(** X5. Once `start` has returned true, the session is there, and a further
    `start` (the host answering `has-session`) returns true again and only
    prints that the worker is already running. *)
Theorem startWorker_success_idempotent workerId w :
  let name := getWorkerSessionName (path_basename (cwd w)) workerId in
  let w' := snd (startWorker workerId w) in
  fst (startWorker workerId w) = Val true ->
  is_Some (sessions w' !! name) /\
  (tmux_rejects (sessions w') (HasSession name) = false ->
   startWorker workerId w'
   = (Val true,
      add_console ("  Worker-" +:+ pretty workerId +:+ " already running") w')).
Proof.
  intros name w' Hok.
  assert (is_Some (sessions w' !! name)) as Hthere
    by by apply startWorker_true_session_aux.
  split; [done|]. intros Hanswers.
  assert (cwd w' = cwd w) as Hcwd by apply steps_startWorker.
  apply startWorker_alive. rewrite Hcwd. fold name.
  unfold session_alive. rewrite Hanswers. by destruct Hthere as [s ->].
Qed.

End StartWorker.

(** ** The operations on all workers *)

Section AllWorkers.
Context `{RT : Runtime} `{HT : Host}.

#[local] Instance kill_step_preorder : PreOrder kill_step.
Proof.
  split.
  - intros w. by repeat split.
  - intros w1 w2 w3 (Hf12 & Ho12 & Ha12) (Hf23 & Ho23 & Ha23).
    split; [|split]; by etrans.
Qed.

#[local] Instance advisory_step_preorder : PreOrder advisory_step.
Proof.
  split.
  - intros w. by repeat split.
  - intros w1 w2 w3 (Hf12 & Ho12 & Ha12) (Hf23 & Ho23 & Ha23).
    split; [|split]; by etrans.
Qed.

#[local] Instance start_step_preorder : PreOrder start_step.
Proof.
  split.
  - intros w. by repeat split.
  - intros w1 w2 w3 (Ho12 & Hk12) (Ho23 & Hk23). split; by etrans.
Qed.





















Lemma sendWorkerPrompt_run workerId w :
  let name := getWorkerSessionName (path_basename (cwd w)) workerId in
  sendWorkerPrompt workerId w
  = if session_alive name w then
      if tmux_rejects (sessions w) (SendKeys name (worker_prompt workerId)) then
        (Val tt,
         add_console ("  Failed to send prompt to Worker-" +:+ pretty workerId +:+ ": "
                      +:+ error_text
                            (CommandFailed
                               (tmux_text (SendKeys name (worker_prompt workerId))))) w)
      else
        (Val tt,
         add_console ("  Prompt sent to Worker-" +:+ pretty workerId)
           (set_sessions
              (alter (typed (worker_prompt workerId)) name (sessions w)) w))
    else (Val tt, add_console ("Worker-" +:+ pretty workerId +:+ " is not running") w).
Proof.
  intros name. unfold sendWorkerPrompt.
  erewrite bind_run by apply getProjectConfig_run.
  erewrite bind_run by apply sessionExists_run.
  change (projectName (project_config (cwd w))) with (path_basename (cwd w)).
  fold name. destruct (session_alive name w) eqn:Halive; [|done].
  destruct (session_alive_lookup _ _ Halive) as [s Hs].
  cbn [negb]. unfold try_catch, mbind, M_bind, bind, execSync_tmux.
  destruct (tmux_rejects (sessions w) (SendKeys name _)); [done|].
  simpl. rewrite Hs. simpl. do 3 f_equal.
  apply map_eq. intros n. rewrite lookup_alter, lookup_insert.
  case_decide; [subst; by rewrite Hs | done].
Qed.







(** One round of the loop of `workers prompt` on a host that takes every
    command: the prompt of the worker is typed into its session, if any. *)
Lemma prompt_round_cooperative workerId w :
  cooperative ->
  let round :=
    (let* config := getProjectConfig in
     let sessionName := getWorkerSessionName (projectName config) workerId in
     let* alive := sessionExists sessionName in
     if alive then sendWorkerPrompt workerId else ret tt) in
  exists w1,
    round w = (Val tt, w1) /\
    cwd w1 = cwd w /\
    sessions w1
    = alter (typed (worker_prompt workerId))
        (getWorkerSessionName (path_basename (cwd w)) workerId) (sessions w).
Proof.
  intros Hcoop round. subst round.
  erewrite bind_run by apply getProjectConfig_run.
  erewrite bind_run by apply sessionExists_run.
  change (projectName (project_config (cwd w))) with (path_basename (cwd w)).
  set (name := getWorkerSessionName (path_basename (cwd w)) workerId).
  destruct (session_alive name w) eqn:Halive.
  - rewrite sendWorkerPrompt_run. fold name. rewrite Halive, Hcoop. by eexists.
  - exists w. split; [done|]. split; [done|].
    unfold session_alive in Halive. rewrite Hcoop in Halive.
    destruct (sessions w !! name) eqn:Hs; [done|].
    apply map_eq. intros n. rewrite lookup_alter.
    case_decide; [subst; by rewrite Hs | done].
Qed.

Lemma for_do_prompts_cooperative hi :
  cooperative ->
  forall fuel i w j,
    sessions
      (snd (for_do fuel i hi
              (fun i =>
                 let* config := getProjectConfig in
                 let sessionName := getWorkerSessionName (projectName config) i in
                 let* alive := sessionExists sessionName in
                 if alive then sendWorkerPrompt i else ret tt) w))
      !! getWorkerSessionName (path_basename (cwd w)) j
    = if bool_decide (i <= j <= hi /\ j < i + Z.of_nat fuel)
      then typed (worker_prompt j)
             <$> sessions w !! getWorkerSessionName (path_basename (cwd w)) j
      else sessions w !! getWorkerSessionName (path_basename (cwd w)) j.
Proof.
  intros Hcoop. induction fuel as [|n IH]; intros i w j.
  { simpl. rewrite bool_decide_eq_false_2; [done | lia]. }
  simpl for_do. destruct (Z.leb_spec i hi) as [Hle|Hgt].
  2:{ simpl. rewrite bool_decide_eq_false_2; [done | lia]. }
  unfold mbind, M_bind.
  destruct (prompt_round_cooperative i w Hcoop) as (w1 & Hround & Hcwd & Hss).
  erewrite bind_run by exact Hround.
  rewrite <- Hcwd, IH, Hcwd, Hss, lookup_alter.
  destruct (decide (j = i)) as [->|Hne].
  - rewrite decide_True by done.
    rewrite bool_decide_eq_false_2 by lia. rewrite bool_decide_eq_true_2 by lia. done.
  - rewrite decide_False.
    2:{ intros Heq. by apply worker_session_names_distinct_aux in Heq. }
    rewrite (bool_decide_ext (i + 1 <= j <= hi /\ j < i + 1 + Z.of_nat n)
               (i <= j <= hi /\ j < i + Z.of_nat (S n))) by lia.
    done.
Qed.

(** X9. On a host that takes every command, `workers prompt` types into the
    session of each worker that has one the prompt naming that worker, once,
    and nothing else. *)
Theorem sendAllWorkerPrompts_delivers w :
  cooperative ->
  forall i, 1 <= i <= WORKER_COUNT ->
    sessions (snd (sendAllWorkerPrompts w))
      !! getWorkerSessionName (path_basename (cwd w)) i
    = typed (worker_prompt i)
        <$> sessions w !! getWorkerSessionName (path_basename (cwd w)) i.
Proof.
  intros Hcoop i Hi. unfold sendAllWorkerPrompts, mbind, M_bind.
  do 2 (erewrite bind_run by reflexivity).
  set (w0 := add_console "" (add_console _ w)).
  pose proof (for_do_prompts_cooperative WORKER_COUNT Hcoop
                (Z.to_nat WORKER_COUNT) 1 w0 i) as Hloop.
  rewrite bool_decide_eq_true_2 in Hloop by (unfold WORKER_COUNT in *; lia).
  match goal with
  | |- context [bind (for_do ?f ?a ?h ?b) _ w0] =>
      destruct (for_do f a h b w0) as [[[]|e] w1] eqn:Hrun
  end.
  - erewrite bind_run by exact Hrun. erewrite bind_run by reflexivity. exact Hloop.
  - erewrite bind_exn by exact Hrun. exact Hloop.
Qed.

End AllWorkers.

Section WorkerScenarios.
#[local] Existing Instance Sample.runtime.
#[local] Existing Instance Sample.host.

Lemma sample_host_cooperative : cooperative.
Proof. by intros ss c. Qed.

Lemma killWorker_effect_witness :
  let w' := snd (killWorker 2 world_with_session_2) in
  sessions w' !! getWorkerSessionName (path_basename (cwd world_with_session_2)) 2 = None /\
  killWorker 2 w' = (Val true, w').
Proof.
  intros w'.
  destruct (killWorker_effect 2 world_with_session_2)
    as (ok & Hok & _ & _ & Hgone & Hagain).
  assert (ok = true) as Htrue by (vm_compute in Hok; congruence).
  split; [exact (Hgone Htrue eq_refl) | exact (Hagain Htrue)].
Defined.

Lemma stopWorker_effect_witness :
  exists s,
    sessions world_with_session_2
      !! getWorkerSessionName (path_basename (cwd world_with_session_2)) 2 = Some s /\
    sessions (snd (stopWorker 2 world_with_session_2))
      !! getWorkerSessionName (path_basename (cwd world_with_session_2)) 2
    = Some (mkSession (s_cwd s) (s_pipe s) (s_mouse s) (s_keys s ++ ["/exit"])).
Proof.
  destruct (stopWorker_effect 2 world_with_session_2)
    as (ok & Hok & _ & _ & _ & Hsent).
  assert (ok = true) as Htrue by (vm_compute in Hok; congruence).
  exact (Hsent Htrue).
Defined.


Lemma startWorker_success_idempotent_witness :
  let w' := snd (startWorker 2 Sample.empty_world) in
  is_Some (sessions w'
             !! getWorkerSessionName (path_basename (cwd Sample.empty_world)) 2) /\
  startWorker 2 w'
  = (Val true, add_console ("  Worker-" +:+ pretty 2 +:+ " already running") w').
Proof.
  intros w'.
  assert (fst (startWorker 2 Sample.empty_world) = Val true) as Hok
    by (vm_compute; reflexivity).
  destruct (startWorker_success_idempotent 2 Sample.empty_world Hok) as [Hthere Hagain].
  split; [exact Hthere | exact (Hagain eq_refl)].
Defined.



Lemma sendAllWorkerPrompts_delivers_witness :
  sessions (snd (sendAllWorkerPrompts world_with_session_2))
    !! getWorkerSessionName (path_basename (cwd world_with_session_2)) 2
  = typed (worker_prompt 2)
      <$> sessions world_with_session_2
            !! getWorkerSessionName (path_basename (cwd world_with_session_2)) 2.
Proof.
  apply (sendAllWorkerPrompts_delivers world_with_session_2 sample_host_cooperative 2).
  unfold WORKER_COUNT. lia.
Defined.

End WorkerScenarios.

(** ** Writing the configuration *)

Section ConfigWriteFacts.
Context `{RT : Runtime} `{HT : Host} `{SR : Serializer}.


(** X10. A value that is not a theme, or a key that is not "theme", is refused
    before anything is written: the world stays as it is. *)
Theorem setConfigValue_refuses key value options w :
  (valid_theme value = false ->
   setConfigValue "theme" value options w = (Val (inl (InvalidTheme value)), w)) /\
  (key <> "theme" ->
   setConfigValue key value options w = (Val (inl (UnknownKey key)), w)).
Proof.
  split.
  - intros Hbad. unfold setConfigValue.
    erewrite bind_run by apply readConfigFile_run. simpl. by rewrite Hbad.
  - intros Hkey. unfold setConfigValue.
    erewrite bind_run by apply readConfigFile_run.
    by destruct (String.eqb_spec key "theme").
Qed.


Lemma getMergedConfig_run projectRoot w :
  getMergedConfig projectRoot w
  = (Val (local_level projectRoot w ∪ config_on_disk GLOBAL_CONFIG_PATH w), w).
Proof.
  unfold getMergedConfig, getGlobalConfig, getLocalConfig, local_level.
  erewrite bind_run by apply readConfigFile_run.
  erewrite bind_run; [reflexivity|].
  destruct (truthy projectRoot); [apply readConfigFile_run | reflexivity].
Qed.






Instance only_paths_preorder paths : PreOrder (only_paths paths).
Proof.
  split; [by intros w|].
  intros w1 w2 w3 (? & ? & ? & ? & Hfs12) (? & ? & ? & ? & Hfs23).
  repeat split; try congruence. intros p Hp. by rewrite Hfs23, Hfs12.
Qed.








End ConfigWriteFacts.

Section ConfigScenarios.
#[local] Existing Instance SampleConfig.runtime.
#[local] Existing Instance SampleConfig.serializer.
#[local] Existing Instance Sample.host.

Lemma setConfigValue_refuses_witness :
  setConfigValue "theme" "blue" (mkSetOptions false None) SampleConfig.world_global_dark
  = (Val (inl (InvalidTheme "blue")), SampleConfig.world_global_dark) /\
  setConfigValue "editor" "vi" (mkSetOptions false None) SampleConfig.world_global_dark
  = (Val (inl (UnknownKey "editor")), SampleConfig.world_global_dark).
Proof.
  split.
  - apply (setConfigValue_refuses "theme" "blue"). reflexivity.
  - apply (setConfigValue_refuses "editor" "vi"). discriminate.
Defined.




End ConfigScenarios.

(** ** `config list` *)

Lemma find_app_entries key (a b : list config_entry) :
  List.find (entry_with key) (a ++ b)
  = match List.find (entry_with key) a with
    | Some r => Some r
    | None => List.find (entry_with key) b
    end.
Proof.
  induction a as [|r a IH]; [done|]. simpl. by destruct (entry_with key r).
Qed.









Section ConfigListFacts.
Context `{RT : Runtime} `{HT : Host}.


End ConfigListFacts.

(** ** Numbers written in decimal and read back *)

Lemma digit_value_pretty_N_char d :
  (d < 10)%N -> digit_value (pretty_N_char d) = Some (Z.of_N d).
Proof.
  intros Hd.
  assert (d = 0 \/ d = 1 \/ d = 2 \/ d = 3 \/ d = 4 \/ d = 5 \/ d = 6 \/ d = 7
          \/ d = 8 \/ d = 9)%N as Hcases by lia.
  repeat (destruct Hcases as [->|Hcases]; [reflexivity|]). by subst d.
Qed.

(** A digit is neither white space nor a sign. *)
Lemma digit_not_space_or_sign c d :
  digit_value c = Some d ->
  is_space c = false /\ c <> "-"%char /\ c <> "+"%char.
Proof.
  destruct c as [[] [] [] [] [] [] [] []]; vm_compute; intros H;
    try discriminate H; by repeat split.
Qed.

Lemma parse_digits_pretty_N_go x :
  (0 < x)%N ->
  exists k : nat, forall acc s,
    parse_digits acc (pretty_N_go x s)
    = parse_digits (Some (default 0 acc * 10 ^ Z.of_nat k + Z.of_N x)) s.
Proof.
  induction (N.lt_wf_0 x) as [x _ IH]. intros Hx.
  assert (x `mod` 10 < 10)%N as Hmod by (apply N.mod_lt; lia).
  pose proof (digit_value_pretty_N_char _ Hmod) as Hdigit.
  pose proof (N.Div0.div_mod x 10) as Hdiv.
  destruct (decide (x `div` 10 = 0)%N) as [Hzero|Hpos].
  - exists 1%nat. intros acc s.
    rewrite pretty_N_go_step, Hzero, pretty_N_go_0 by done.
    simpl. rewrite Hdigit. do 2 f_equal. lia.
  - destruct (IH (x `div` 10)%N) as [k Hk]; [apply N.div_lt; lia | lia |].
    exists (S k). intros acc s.
    rewrite pretty_N_go_step, Hk by done.
    simpl. rewrite Hdigit. do 2 f_equal.
    rewrite Nat2Z.inj_succ, Z.pow_succ_r by lia. lia.
Qed.

Lemma pretty_N_go_head x s :
  (0 < x)%N ->
  exists c t d, pretty_N_go x s = String c t /\ digit_value c = Some d.
Proof.
  revert s. induction (N.lt_wf_0 x) as [x _ IH]. intros s Hx.
  rewrite pretty_N_go_step by done.
  destruct (decide (x `div` 10 = 0)%N) as [->|Hpos].
  - rewrite pretty_N_go_0. eexists _, _, _. split; [done|].
    apply digit_value_pretty_N_char, N.mod_lt. lia.
  - apply IH; [apply N.div_lt; lia | by apply N.neq_0_lt_0].
Qed.

Lemma parseInt_pretty_pos p : parse_digits None (pretty (N.pos p)) = Some (Z.pos p).
Proof.
  unfold pretty, pretty_N. rewrite decide_False by done.
  destruct (parse_digits_pretty_N_go (N.pos p)) as [k Hk]; [lia|].
  rewrite Hk. simpl. f_equal.
Qed.

(** `parseInt(String(z), 10) === z` *)
Lemma parseInt_pretty (z : Z) : parseInt (pretty z) = Some z.
Proof.
  destruct z as [|p|p].
  - reflexivity.
  - change (pretty (Z.pos p)) with (pretty (N.pos p)).
    pose proof (parseInt_pretty_pos p) as Hdigits.
    unfold pretty, pretty_N in *. rewrite decide_False in * by done.
    destruct (pretty_N_go_head (N.pos p) "") as (c & t & d & Heq & Hd); [lia|].
    rewrite Heq in *. destruct (digit_not_space_or_sign c d Hd) as (Hs & Hm & Hp).
    unfold parseInt. cbn [trim_start]. rewrite Hs.
    destruct c as [[] [] [] [] [] [] [] []]; try done.
  - change (pretty (Z.neg p)) with (String "-" (pretty (N.pos p))).
    change (parseInt (String "-" (pretty (N.pos p))))
      with (Z.opp <$> parse_digits None (pretty (N.pos p))).
    by rewrite parseInt_pretty_pos.
Qed.

Lemma pretty_Z_nonempty (z : Z) : pretty z <> "".
Proof. intros Hempty. pose proof (parseInt_pretty z) as H. by rewrite Hempty in H. Qed.

(** ** The theme *)

Section ThemeFacts.
Context `{RT : Runtime} `{HT : Host} `{SR : Serializer}.
Variable env : gmap string string.

Lemma initTheme_mode_run override projectRoot w :
  exists m, initTheme_mode env override projectRoot w = (Val m, w) /\
    m = match truthy override with
        | Some o => o
        | None =>
            match light_or_dark (env !! "HIVECODE_THEME") with
            | Some m => m
            | None =>
                match light_or_dark
                        ((local_level projectRoot w
                            ∪ config_on_disk GLOBAL_CONFIG_PATH w) !! "theme") with
                | Some m => m
                | None => detectTerminalTheme env
                end
            end
        end.
Proof.
  unfold initTheme_mode.
  destruct (truthy override); [by eexists|].
  destruct (light_or_dark (env !! _)); [by eexists|].
  erewrite bind_run by apply getMergedConfig_run.
  destruct (light_or_dark (_ !! "theme")); by eexists.
Qed.

Lemma theme_of_cases m : theme_of m = lightTheme \/ theme_of m = darkTheme.
Proof. unfold theme_of. destruct (String.eqb m "light"); auto. Qed.

(** X16. `initTheme` always settles on one of the two themes: it does not throw
    and writes nothing, whatever the override, the environment and the
    configuration files are. *)
Theorem initTheme_settles override projectRoot w :
  exists t, initTheme env override projectRoot w = (Val t, w) /\
            (t = lightTheme \/ t = darkTheme).
Proof.
  destruct (initTheme_mode_run override projectRoot w) as (m & Hrun & _).
  exists (theme_of m). split; [|apply theme_of_cases].
  unfold initTheme. by erewrite bind_run by exact Hrun.
Qed.




End ThemeFacts.

(** X19. With `COLORFGBG` set and its second field a number, that number alone
    decides what is detected: light from 7 on, dark below, also when a
    cursor colour follows and whatever `TERM_PROGRAM` says. *)
Theorem detectTerminalTheme_background env colorfgbg fg (bg : Z) rest :
  env !! "COLORFGBG" = Some colorfgbg ->
  split_on ";" colorfgbg = fg :: pretty bg :: rest ->
  detectTerminalTheme env = if bool_decide (7 <= bg) then "light" else "dark".
Proof.
  intros Henv Hsplit. unfold detectTerminalTheme. rewrite Henv.
  assert (truthy (Some colorfgbg) = Some colorfgbg) as ->.
  { destruct colorfgbg; [discriminate Hsplit | done]. }
  rewrite Hsplit. cbn [lookup list_lookup].
  assert (or_default (Some (pretty bg)) (List.last (fg :: pretty bg :: rest) "")
          = pretty bg) as ->.
  { pose proof (pretty_Z_nonempty bg). unfold or_default. by destruct (pretty bg). }
  rewrite parseInt_pretty.
  destruct (Z.leb_spec 7 bg); [by rewrite bool_decide_true | by rewrite bool_decide_false by lia].
Qed.

Section ThemeScenarios.
#[local] Existing Instance SampleConfig.runtime.
#[local] Existing Instance SampleConfig.serializer.
#[local] Existing Instance Sample.host.



Lemma detectTerminalTheme_background_witness :
  detectTerminalTheme (env_fgbg "15;0") = "dark" /\
  detectTerminalTheme (env_fgbg "0;15;7") = "light".
Proof.
  split.
  - exact (detectTerminalTheme_background (env_fgbg "15;0") "15;0" "15" 0 []
             eq_refl eq_refl).
  - exact (detectTerminalTheme_background (env_fgbg "0;15;7") "0;15;7" "0" 15 ["7"]
             eq_refl eq_refl).
Defined.

End ThemeScenarios.

(** ** The log tail over a run *)

Section LogFacts.
Context `{RT : Runtime} `{HT : Host}.

Lemma recent_lines_ok content :
  (length (recent_lines content) <= MAX_LINES)%nat /\
  Forall (fun line => nonblank line = true) (recent_lines content).
Proof.
  unfold recent_lines, slice_last. split.
  - rewrite length_drop. lia.
  - apply Forall_drop, Forall_forall. intros line Hin.
    apply list_elem_of_In, filter_In in Hin. tauto.
Qed.

Lemma tail_after_ok st n : tail_ok st -> tail_ok (tail_after st n).
Proof.
  intros Hok. unfold tail_after. destruct n as [[content|size]|]; try done.
  destruct (_ >? _); [|done].
  destruct (recent_lines_ok content) as [Hlen Hall].
  repeat split; simpl; [done | done | lia].
Qed.

Lemma tail_after_grows st n : lastSize st <= lastSize (tail_after st n).
Proof.
  unfold tail_after. destruct n as [[content|size]|]; try done.
  destruct (Z.gtb_spec (Z.of_nat (String.length content)) (lastSize st)); simpl; lia.
Qed.

Lemma after_poll_tail path st w : after_poll path st w = tail_after st (fs w !! path).
Proof. unfold after_poll. by rewrite pollLog_run. Qed.

(** X20. Whatever happens to the log file between the polls (growth,
    truncation, removal, a directory in its place), the hook never holds
    more than 100 lines, never a blank one, and its remembered size is
    never negative. *)
Theorem useWorkerLogs_bounded projectName workerId start ticks :
  tail_ok (useWorkerLogs_over projectName workerId start ticks).
Proof.
  unfold useWorkerLogs_over.
  set (path := getWorkerLogPath projectName workerId).
  assert (tail_ok (after_poll path logs_reset start)) as Hstart.
  { rewrite after_poll_tail. apply tail_after_ok.
    unfold tail_ok, logs_reset, MAX_LINES. simpl. repeat split; [lia | constructor | lia]. }
  revert Hstart. generalize (after_poll path logs_reset start).
  induction ticks as [|w ticks IH]; intros st Hst; [done|].
  simpl. apply IH. rewrite after_poll_tail. by apply tail_after_ok.
Qed.

(** X21. A poll never throws and writes nothing; the remembered size never goes
    down; and a second poll of an unchanged world changes nothing more. *)
Theorem pollLog_settles path st w :
  exists st',
    pollLog path st w = (Val st', w) /\
    lastSize st <= lastSize st' /\
    pollLog path st' w = (Val st', w).
Proof.
  exists (tail_after st (fs w !! path)).
  split; [apply pollLog_run|]. split; [apply tail_after_grows|].
  rewrite pollLog_run. f_equal. f_equal.
  unfold tail_after. destruct (fs w !! path) as [[content|size]|]; try done.
  destruct (Z.gtb_spec (Z.of_nat (String.length content)) (lastSize st)) as [Hgt|Hle].
  - simpl. by rewrite Z.gtb_ltb, Z.ltb_irrefl.
  - destruct (Z.gtb_spec (Z.of_nat (String.length content)) (lastSize st)); [lia|done].
Qed.

End LogFacts.

(** ** The shortcuts of the dashboard *)

Section AppFacts.
Context `{RT : Runtime} `{HT : Host}.

Lemma attachWorker_run workerId w :
  session_alive (getWorkerSessionName (path_basename (cwd w)) workerId) w = true ->
  attachWorker workerId w
  = (Val (Some (getWorkerSessionName (path_basename (cwd w)) workerId)), w).
Proof.
  intros Halive. unfold attachWorker.
  erewrite bind_run by apply getProjectConfig_run.
  cbn [projectName project_config].
  erewrite bind_run by apply sessionExists_run.
  by rewrite Halive.
Qed.

(** X22. The shortcut `a`, pressed on what the dashboard has just polled: it
    picks the lowest-numbered worker whose session is alive, and
    `attachWorker` for it finds the session and prints nothing; with no
    worker alive the key does nothing.  It never exits the dashboard
    without a worker to attach to. *)
Theorem attach_shortcut_first_running w ctrl :
  let name i := getWorkerSessionName (path_basename (cwd w)) i in
  exists workers,
    useWorkerStatus_init w = (Val workers, w) /\
    match useInput workers "a" ctrl with
    | Attach i =>
        1 <= i <= WORKER_COUNT /\
        (forall j, 1 <= j < i -> session_alive (name j) w = false) /\
        attachWorker i w = (Val (Some (name i)), w)
    | NoAction =>
        forall j, 1 <= j <= WORKER_COUNT -> session_alive (name j) w = false
    | Exit => False
    end.
Proof.
  intros name. exists (map (worker_info w) [1; 2; 3; 4]).
  split; [apply getWorkersInfo_run|].
  unfold useInput. cbn [String.eqb Ascii.eqb Bool.eqb andb orb].
  rewrite andb_false_r. simpl orb. cbv iota.
  rewrite bool_decide_eq_false_2
    by (rewrite !elem_of_cons, elem_of_nil; intros H;
        repeat (destruct H as [H|H]; [discriminate H|]); exact H).
  cbn [map List.find running worker_info projectName project_config].
  fold (name 1) (name 2) (name 3) (name 4).
  destruct (session_alive (name 1) w) eqn:H1.
  { change (info_id (worker_info w 1)) with 1. split; [unfold WORKER_COUNT; lia|]. split; [intros j Hj; lia|].
    by apply attachWorker_run. }
  destruct (session_alive (name 2) w) eqn:H2.
  { change (info_id (worker_info w 2)) with 2. split; [unfold WORKER_COUNT; lia|]. split.
    - intros j Hj. assert (j = 1) as -> by lia. done.
    - by apply attachWorker_run. }
  destruct (session_alive (name 3) w) eqn:H3.
  { change (info_id (worker_info w 3)) with 3. split; [unfold WORKER_COUNT; lia|]. split.
    - intros j Hj. assert (j = 1 \/ j = 2) as [-> | ->] by lia; done.
    - by apply attachWorker_run. }
  destruct (session_alive (name 4) w) eqn:H4.
  { change (info_id (worker_info w 4)) with 4. split; [unfold WORKER_COUNT; lia|]. split.
    - intros j Hj. assert (j = 1 \/ j = 2 \/ j = 3) as [-> | [-> | ->]] by lia; done.
    - by apply attachWorker_run. }
  intros j Hj. unfold WORKER_COUNT in Hj.
  assert (j = 1 \/ j = 2 \/ j = 3 \/ j = 4) as [-> | [-> | [-> | ->]]] by lia; done.
Qed.

End AppFacts.

(** ** The card of a worker *)

Lemma slice_prefix_idemp n s : slice_prefix n (slice_prefix n s) = slice_prefix n s.
Proof.
  unfold slice_prefix. revert s. induction n as [|n IH]; intros s.
  - by destruct s.
  - destruct s as [|c s]; [done|]. simpl. by rewrite IH.
Qed.

Lemma slice_last_idemp {A} n (l : list A) : slice_last n (slice_last n l) = slice_last n l.
Proof.
  unfold slice_last. rewrite length_drop.
  replace (length l - (length l - n) - n)%nat with 0%nat by lia. done.
Qed.

Lemma slice_last_map {A B} (f : A -> B) n (l : list A) :
  slice_last n (map f l) = map f (slice_last n l).
Proof. unfold slice_last. by rewrite length_map, <- fmap_drop. Qed.

Lemma card_logs_again columns (compact : bool) logs :
  slice_last (if compact then 5 else 4)%nat (card_logs columns compact logs)
  = card_logs columns compact logs.
Proof. unfold card_logs. by rewrite slice_last_map, slice_last_idemp. Qed.

(** X23. The card reads the logs only through their last five (compact) or
    four lines, each cut to the line width of the terminal: it is the same
    card for the whole tail the hook holds and for those few cut lines. *)
Theorem WorkerCard_reads_last_lines columns colors logs worker selected compact :
  WorkerCard columns colors logs worker selected compact
  = WorkerCard columns colors (card_logs columns compact logs) worker selected compact.
Proof.
  unfold WorkerCard. rewrite card_logs_again.
  unfold card_logs. cbv zeta.
  set (width := Z.to_nat (card_line_width columns)).
  match goal with
  | |- context [Z.to_nat (Z.max ?a 15)] => change (Z.to_nat (Z.max a 15)) with width
  end.
  set (recent := slice_last (if compact then 5 else 4)%nat logs).
  rewrite length_map, map_map.
  assert (map (fun line => Text (c_textDim colors) false
                             [Str (slice_prefix width (slice_prefix width line))]) recent
          = map (fun line => Text (c_textDim colors) false
                               [Str (slice_prefix width line)]) recent) as ->.
  { apply map_ext. intros line. by rewrite slice_prefix_idemp. }
  reflexivity.
Qed.

(** X24. The card of a worker that is not running shows nothing of its
    activity: it is the same card whatever the logs hold and whatever
    current task and subagent the status document names. *)
Theorem WorkerCard_stopped_hides_activity columns colors logs logs' worker
    selected compact :
  running worker = false ->
  WorkerCard columns colors logs worker selected compact
  = WorkerCard columns colors logs' (without_activity worker) selected compact.
Proof.
  intros Hstopped. unfold WorkerCard, without_activity.
  destruct worker as [i sn wp lp r [st|]]; simpl in *; subst r; reflexivity.
Qed.

Lemma WorkerCard_stopped_hides_activity_witness :
  WorkerCard (Some 100) sample_colors ["compiling"; "done"] stopped_worker false true
  = WorkerCard (Some 100) sample_colors [] (without_activity stopped_worker) false true.
Proof. apply WorkerCard_stopped_hides_activity. reflexivity. Defined.

(** ** The key bindings as a whole *)

Module KeysSetupFacts.
Import Keys KeysSetup.

Section Bindings.
Variable accepts : request -> bool.

Lemma run_other_key r b k :
  (r_table r, r_key r) <> k -> run accepts r b !! k = b !! k.
Proof.
  intros Hne. unfold run. destruct (accepts r); [|done].
  by apply lookup_insert_ne.
Qed.

(** X25. Whatever the server accepts, the setup leaves every binding alone that
    is not one of its own twenty-one: in the root table only the mode key is
    taken, and no table other than root, hive and prefix is touched. *)
Theorem setupKeybindings_touches_only theme sessionName projectName b0 table key :
  (table, key) ∉ setup_keys ->
  setupKeybindings accepts theme sessionName projectName b0 !! (table, key)
  = b0 !! (table, key).
Proof.
  intros Hout. unfold setupKeybindings.
  destruct (getStatusBarStrings theme) as [normal hiveBar].
  rewrite !KeysFacts.for_state_1_4. unfold bind, bindHive.
  repeat (rewrite run_other_key;
          [| cbn [r_table r_key]; intros [= <- <-]; apply Hout;
             apply list_elem_of_In; vm_compute;
             repeat (first [left; reflexivity | right])]).
  reflexivity.
Qed.



End Bindings.

Lemma exec_keeps_status has_session sessionName projectName key cl :
  status_right (exec_sequence has_session (hive_action sessionName projectName key) cl)
  = status_right cl.
Proof.
  unfold hive_action.
  repeat (case_match; try done); simpl; unfold worker_attach; simpl;
    by destruct (has_session _).
Qed.


Lemma setupKeybindings_touches_only_witness :
  setupKeybindings (fun _ => true) sample_theme "hive-proj" "proj"
    {[ ("prefix", "d") := [SelectPane "-D"] ]} !! ("prefix", "d")
  = Some [SelectPane "-D"].
Proof.
  rewrite (setupKeybindings_touches_only (fun _ => true) sample_theme "hive-proj" "proj"
             {[ ("prefix", "d") := [SelectPane "-D"] ]} "prefix" "d").
  - reflexivity.
  - vm_compute. intros Hin. apply list_elem_of_In in Hin. vm_compute in Hin.
    repeat (destruct Hin as [Hin|Hin]; [discriminate Hin|]). exact Hin.
Defined.


End KeysSetupFacts.

(** ** Restarting a worker *)

Section Restart.
Context `{RT : Runtime} `{HT : Host}.

Lemma createWorktree_path_or_root root base workerId branch w p :
  fst (createWorktree root base workerId branch w) = Val p ->
  p = getWorktreePath base workerId \/ p = root.
Proof.
  rewrite createWorktree_run. unfold createWorktree_outcome.
  destruct (fs _ !! getWorktreePath base workerId); [intros [= <-]; by left|].
  destruct (git_worktree_add _ _) as [f|]; [|intros [= <-]; by right].
  simpl. destruct (f !! _); intros [= <-]; auto.
Qed.

(** The tmux requests of a start, on a host that takes every command and
    has no session of that name yet. *)
Lemma start_requests_fresh name d log (line : string) handler w :
  cooperative ->
  sessions w !! name = None ->
  try_catch
    (execSync_tmux (NewSession name d);;
     execSync_tmux (PipePane name ("cat >> " +:+ log));;
     execSync_tmux (SetMouseOn name);;
     execSync_tmux (SendKeys name "claude --dangerously-skip-permissions");;
     console_log line;;
     ret true) handler w
  = (Val true,
     add_console line
       (set_sessions (<[name := fresh_session d log]> (sessions w)) w)).
Proof.
  intros Hcoop Habsent.
  unfold try_catch, mbind, M_bind, bind, execSync_tmux.
  rewrite !Hcoop. simpl. rewrite Habsent. simpl.
  rewrite !Hcoop. simpl. rewrite lookup_insert_eq. simpl.
  rewrite !Hcoop. simpl. rewrite lookup_insert_eq. simpl.
  rewrite !Hcoop. simpl. rewrite lookup_insert_eq. simpl.
  unfold console_log, modify, add_console, set_sessions, fresh_session. simpl.
  by rewrite !insert_insert_eq.
Qed.

Lemma startWorker_fresh workerId w ok w' :
  let name := getWorkerSessionName (path_basename (cwd w)) workerId in
  let log := getWorkerLogPath (path_basename (cwd w)) workerId in
  cooperative ->
  sessions w !! name = None ->
  startWorker workerId w = (Val ok, w') ->
  ok = true /\
  exists d,
    sessions w' !! name = Some (fresh_session d log) /\
    (d = getWorktreePath (worktreeBase (project_config (cwd w))) workerId \/ d = cwd w).
Proof.
  intros name log Hcoop Habsent.
  rewrite startWorker_unfold. unfold startWorker_with.
  cbn [projectName projectRoot project_config]. fold name log.
  erewrite bind_run by apply sessionExists_run.
  rewrite session_alive_absent by done.
  set (base := path_join [path_dirname (cwd w); ".worktrees"; path_basename (cwd w)]).
  destruct (createWorktree_returns (cwd w) base workerId None w)
    as (d & Hd & _ & Hsessions).
  pose proof (createWorktree_path_or_root (cwd w) base workerId None w d Hd) as Hwhere.
  unfold bind at 1. cbn [worktreeBase project_config]. fold base.
  destruct (createWorktree (cwd w) base workerId None w) as [r w1].
  cbn [fst snd] in Hd, Hsessions. subst r.
  match goal with
  | |- context [try_catch ?body ?handler] => set (block := try_catch body handler)
  end.
  unfold mbind, M_bind. unfold bind at 1. unfold writeFileSync at 1.
  destruct (fs w1 !! log) as [[c|n]|]; [|intros [=]|]; subst block.
  - rewrite start_requests_fresh
      by (try done; cbn [sessions set_fs]; by rewrite Hsessions).
    intros [= <- <-]. split; [done|]. exists d. split; [|done].
    simpl. apply lookup_insert_eq.
  - rewrite start_requests_fresh
      by (try done; cbn [sessions set_fs]; by rewrite Hsessions).
    intros [= <- <-]. split; [done|]. exists d. split; [|done].
    simpl. apply lookup_insert_eq.
Qed.

Lemma killWorker_clears workerId w :
  cooperative ->
  exists w1,
    killWorker workerId w = (Val true, w1) /\
    cwd w1 = cwd w /\
    sessions w1 !! getWorkerSessionName (path_basename (cwd w)) workerId = None.
Proof.
  intros Hcoop. rewrite killWorker_run. cbv zeta.
  set (name := getWorkerSessionName (path_basename (cwd w)) workerId).
  unfold session_alive. rewrite !Hcoop.
  destruct (sessions w !! name) eqn:Hs.
  - eexists. split; [reflexivity|]. split; [done|]. simpl. apply lookup_delete_eq.
  - eexists. split; [reflexivity|]. by split.
Qed.

(** X27. On a host that takes every command, a `restart` of a slot in 1..4 that
    returns leaves a session as fresh as a first start does: whatever the
    old session was and had been sent is gone; the new one runs in the
    worktree (or, without one, in the project root), pipes to the log, and
    has received only the launch command. *)
Theorem restartWorker_replaces_session workerId w :
  let name := getWorkerSessionName (path_basename (cwd w)) workerId in
  let log := getWorkerLogPath (path_basename (cwd w)) workerId in
  cooperative ->
  1 <= workerId <= WORKER_COUNT ->
  fst (restartWorker workerId w) = Val tt ->
  exists d,
    sessions (snd (restartWorker workerId w)) !! name = Some (fresh_session d log) /\
    (d = getWorktreePath (worktreeBase (project_config (cwd w))) workerId \/ d = cwd w).
Proof.
  intros name log Hcoop Hslot. unfold restartWorker.
  replace ((workerId <? 1) || (workerId >? WORKER_COUNT)) with false
    by (unfold WORKER_COUNT in *; lia).
  unfold mbind, M_bind.
  erewrite bind_run by reflexivity. erewrite bind_run by reflexivity.
  match goal with
  | |- context [bind (killWorker workerId) _ ?v] => set (w0 := v)
  end.
  destruct (killWorker_clears workerId w0 Hcoop) as (w1 & Hkill & Hcwd & Hgone).
  erewrite bind_run by exact Hkill.
  erewrite bind_run by reflexivity.
  change (cwd w0) with (cwd w) in Hcwd, Hgone. fold name in Hgone.
  pose proof (startWorker_fresh workerId w1) as Hstart.
  rewrite Hcwd in Hstart. fold name log in Hstart. cbv zeta in Hstart.
  destruct (startWorker workerId w1) as [[ok|e] w2] eqn:Hrun.
  - rewrite (bind_run _ _ _ _ _ Hrun).
    destruct (Hstart ok w2 Hcoop Hgone eq_refl) as (_ & d & Hsession & Hd).
    intros _. exists d. split; [|exact Hd]. exact Hsession.
  - rewrite (bind_exn _ _ _ _ _ Hrun). intros [=].
Qed.

End Restart.

Section RestartScenarios.
#[local] Existing Instance Sample.runtime.
#[local] Existing Instance Sample.host.

Lemma restartWorker_replaces_session_witness :
  exists d,
    sessions (snd (restartWorker 2 world_with_busy_session_2))
      !! getWorkerSessionName (path_basename (cwd world_with_busy_session_2)) 2
    = Some (fresh_session d
              (getWorkerLogPath (path_basename (cwd world_with_busy_session_2)) 2)).
Proof.
  assert (cooperative) as Hcoop by (by intros ss c).
  assert (1 <= 2 <= WORKER_COUNT) as Hslot by (vm_compute; split; discriminate).
  assert (fst (restartWorker 2 world_with_busy_session_2) = Val tt) as Hreturns
    by (vm_compute; reflexivity).
  destruct (restartWorker_replaces_session 2 world_with_busy_session_2
              Hcoop Hslot Hreturns) as (d & Hsession & _).
  exists d. exact Hsession.
Defined.

End RestartScenarios.

(** ** The worktree of a worker *)

Section Worktree.
Context `{RT : Runtime} `{HT : Host}.


End Worktree.
